(** * Relevance-gated RAG pipeline: the notebook's post-processing functions

    A shallow embedding of the Python functions of
    [advanced_rag_pipeline_with_relevance_check.ipynb]:
    [format_docs], [extract_relevance_score], [format_json_output],
    [conditional_answer], the [rag_chain] composition and
    [process_user_input], together with the pieces of the Python runtime
    they rest on ([str.strip], [float(str)], float comparison, dict
    subscription, exceptions).

    Conventions.
    - A Python [float] is an IEEE-754 binary64 value, here a [spec_float]
      at precision 53 and [emax] 1024.
    - A Python [str] is a [string] in the chain; its characters are read
      as the code points U+0000 to U+00FF. Texts of arbitrary code points
      are lists of code points ([ustr]), with the tables of the Unicode
      database as parameters; [extract_relevance_score] is given on both
      and the two agree below U+0100.
    - A Python computation that may raise is a value of [py A]. *)

From Stdlib Require Import ZArith Lia List Ascii String Bool Sorted Permutation.
From Stdlib Require Import Floats.SpecFloat.
From stdpp Require Import gmap strings.

Local Open Scope Z_scope.

(** ** Exceptions *)

Inductive exn : Type :=
  | ValueError
  | KeyError (k : string)
  | AttributeError
  | TypeError.

Inductive py (A : Type) : Type :=
  | Return (a : A)
  | Raise (e : exn).

Arguments Return {A} a.
Arguments Raise {A} e.

Definition py_bind {A B : Type} (m : py A) (k : A -> py B) : py B :=
  match m with
  | Return a => k a
  | Raise e => Raise e
  end.

Notation "x <- m ;; k" := (py_bind m (fun x => k))
  (at level 100, m at next level, right associativity).

(** [try: body except ValueError: handler] *)
Definition try_except_ValueError {A : Type} (body : py A) (handler : py A) : py A :=
  match body with
  | Raise ValueError => handler
  | other => other
  end.

(** ** Binary64 floats *)

Definition float : Type := spec_float.

Definition prec : Z := 53.
Definition emax : Z := 1024.

(** An [int] used where a float is expected ([relevance_score < 4]). *)
Definition float_of_Z (z : Z) : float := binary_normalize prec emax z 0 false.

Definition py_lt (a b : float) : bool := SFltb a b.
Definition py_le (a b : float) : bool := SFleb a b.
Definition py_ge (a b : float) : bool := SFleb b a.

Definition is_nan (a : float) : bool :=
  match a with
  | S754_nan => true
  | _ => false
  end.

(** The correctly rounded (nearest, ties to even) binary64 value of
    [(-1)^neg * m * 10^e]; too large a magnitude gives an infinity. *)
Definition decimal_to_float (neg : bool) (m : N) (e : Z) : float :=
  match m with
  | N0 => S754_zero neg
  | Npos p =>
      if 0 <=? e then
        binary_round prec emax neg (p * Z.to_pos (10 ^ e))%positive 0
      else
        let '(q, e', l) := SFdiv_core_binary prec emax (Zpos p) 0 (10 ^ (- e)) 0 in
        binary_round_aux prec emax neg q e' l
  end.

(** ** Characters and whitespace *)

Definition code (c : ascii) : N := N_of_ascii c.

Definition is_digit (c : ascii) : bool :=
  ((48 <=? code c) && (code c <=? 57))%N.

Definition digit_val (c : ascii) : N := (code c - 48)%N.

Definition is_underscore (c : ascii) : bool := (code c =? 95)%N.

(** [Py_ISSPACE]: the C-locale whitespace of [pyctype.h]. *)
Definition Py_ISSPACE (c : ascii) : bool :=
  (((9 <=? code c) && (code c <=? 13)) || (code c =? 32))%N.

(** [str.isspace] on one character (below U+0100): the separators
    U+001C to U+001F, NEL and the no-break space count as well. *)
Definition Py_UNICODE_ISSPACE (c : ascii) : bool :=
  (Py_ISSPACE c || ((28 <=? code c) && (code c <=? 31))
   || (code c =? 133) || (code c =? 160))%N.

Definition to_lower (c : ascii) : ascii :=
  if ((65 <=? code c) && (code c <=? 90))%N then ascii_of_N (code c + 32) else c.

Fixpoint drop_while (p : ascii -> bool) (s : list ascii) : list ascii :=
  match s with
  | [] => []
  | c :: r => if p c then drop_while p r else s
  end.

Definition strip_with (p : ascii -> bool) (s : list ascii) : list ascii :=
  rev (drop_while p (rev (drop_while p s))).

(** [s.strip()] *)
Definition strip (s : string) : string :=
  string_of_list_ascii (strip_with Py_UNICODE_ISSPACE (list_ascii_of_string s)).

(** ** [float(s)] for a [str] argument *)

(** [_PyUnicode_TransformDecimalAndSpaceToASCII] on a text below U+0100,
    which is what a [string] holds: a character below U+007F stays, other
    whitespace becomes a space, and any other character becomes ['?']. The
    branch of [Py_UNICODE_TODECIMAL] is never taken here, no character
    from U+0080 to U+00FF being a decimal digit; [transform_loop] below
    has it, for texts of arbitrary code points. CPython cuts the text
    after the first ['?'] and leaves a text that is all ASCII untouched,
    DEL included; neither ['?'] nor DEL can occur in a float literal, so
    the parse fails in each case. *)
Definition transform_char (c : ascii) : ascii :=
  if (code c <? 127)%N then c
  else if Py_UNICODE_ISSPACE c then " "%char
  else "?"%char.

(** [_Py_string_to_number_with_underscores]: an underscore is dropped when
    it stands between two digits and is an error anywhere else. *)
Fixpoint drop_underscores (prev : ascii) (s : list ascii) : option (list ascii) :=
  match s with
  | [] => if is_underscore prev then None else Some []
  | c :: r =>
      if is_underscore c then
        if is_digit prev then drop_underscores c r else None
      else if is_underscore prev && negb (is_digit c) then None
      else option_map (cons c) (drop_underscores c r)
  end.

Fixpoint span_digits (s : list ascii) : list ascii * list ascii :=
  match s with
  | [] => ([], [])
  | c :: r =>
      if is_digit c then let '(ds, rest) := span_digits r in (c :: ds, rest)
      else ([], s)
  end.

Definition digits_value (ds : list ascii) : N :=
  fold_left (fun acc c => (10 * acc + digit_val c)%N) ds 0%N.

Definition parse_sign (s : list ascii) : bool * list ascii :=
  match s with
  | "-"%char :: r => (true, r)
  | "+"%char :: r => (false, r)
  | _ => (false, s)
  end.

(** The exponent part, which must reach the end of the text. *)
Definition parse_exponent (s : list ascii) : option Z :=
  match s with
  | [] => Some 0
  | c :: r =>
      if Ascii.eqb (to_lower c) "e" then
        let '(neg, r1) := parse_sign r in
        match span_digits r1 with
        | ((_ :: _) as ds, []) =>
            let v := Z.of_N (digits_value ds) in
            Some (if neg then - v else v)
        | _ => None
        end
      else None
  end.

(** [digits [. digits] [exponent]] or [. digits [exponent]]: the mantissa
    digits read as an integer, and the decimal exponent. *)
Definition parse_decimal (s : list ascii) : option (N * Z) :=
  let '(ip, r1) := span_digits s in
  let '(fp, r2) :=
    match r1 with
    | "."%char :: r => span_digits r
    | _ => ([], r1)
    end in
  match ip ++ fp with
  | [] => None
  | ds =>
      match parse_exponent r2 with
      | Some e => Some (digits_value ds, e - Z.of_nat (List.length fp))
      | None => None
      end
  end.

(** [_Py_parse_inf_or_nan], after the sign. *)
Definition parse_inf_or_nan (neg : bool) (s : list ascii) : option float :=
  let l := string_of_list_ascii (map to_lower s) in
  if String.eqb l "inf" || String.eqb l "infinity" then Some (S754_infinity neg)
  else if String.eqb l "nan" then Some S754_nan
  else None.

Definition parse_float (s : list ascii) : option float :=
  let '(neg, r) := parse_sign s in
  match parse_decimal r with
  | Some (m, e) => Some (decimal_to_float neg m e)
  | None => parse_inf_or_nan neg r
  end.

(** [float(s)]: [ValueError] unless the text, without surrounding
    whitespace, is a float literal. *)
Definition float_of_str (s : string) : py float :=
  match drop_underscores zero (map transform_char (list_ascii_of_string s)) with
  | None => Raise ValueError
  | Some t =>
      match strip_with Py_ISSPACE t with
      | [] => Raise ValueError
      | body =>
          match parse_float body with
          | Some f => Return f
          | None => Raise ValueError
          end
      end
  end.

(** ** Values and dictionaries *)

(** [class FinalOutputModel(BaseModel)]: two fields, constrained by their
    types only. *)
Record FinalOutputModel : Type := {
  relevance_score : float;
  answer : string
}.

(** What the dictionaries of the chain hold: the source annotates
    [str | FinalOutputModel], and these two kinds of value are the ones
    modelled. Other Python objects ([bytes], [None], numbers) are not
    values of this type, and nothing is said about them. *)
Inductive value : Type :=
  | VStr (s : string)
  | VModel (m : FinalOutputModel).

Abbreviation dict := (gmap string value).

(** [x[k]] *)
Definition getitem (x : dict) (k : string) : py value :=
  match x !! k with
  | Some v => Return v
  | None => Raise (KeyError k)
  end.

(** [v.strip()]: of the two kinds of value, the [str] has the method and
    the [FinalOutputModel] has no such attribute. *)
Definition str_strip (v : value) : py string :=
  match v with
  | VStr s => Return (strip s)
  | VModel _ => Raise AttributeError
  end.

(** [float(v)] *)
Definition py_float (v : value) : py float :=
  match v with
  | VStr s => float_of_str s
  | VModel _ => Raise TypeError
  end.

(** ** Post-processing *)

Record Document : Type := { page_content : string }.

Definition nl : string := String "010" EmptyString.

Definition format_docs (docs : list Document) : string :=
  String.concat (nl +:+ nl) (map page_content docs).

Definition extract_relevance_score (llm_output : value) : py float :=
  try_except_ValueError
    (stripped <- str_strip llm_output ;;
     score <- float_of_str stripped ;;
     Return score)
    (Return (S754_zero false)).

(** The JSON text that [json.dumps(json_output)] writes and the parser
    reads back: an object with a number and a string member. The round
    trip through the text is the identity on both ([repr] of a float reads
    back as the same float, [NaN] and [Infinity] included). *)
Record json_text : Type := {
  json_relevance_score : float;
  json_answer : string
}.

(** [json.dumps] of the two-entry dictionary, for the two kinds of value
    an answer entry can be here: a [str] is written as a JSON string, a
    [FinalOutputModel] is not serializable. *)
Definition json_dumps (score : float) (a : value) : py json_text :=
  match a with
  | VStr s => Return {| json_relevance_score := score; json_answer := s |}
  | VModel _ => Raise TypeError
  end.

(** [pydantic_parser.parse_result([Generation(text=...)])]: the text is
    read back as JSON and its members are validated against the fields of
    [FinalOutputModel]. The fields carry a type and a description only, no
    length or range constraint, so a JSON number and a JSON string, of any
    content, always validate. A [json_text] has exactly these two members:
    the texts [json_dumps] writes for other answers (such as [null]) are
    not among them. *)
Definition parse_result (t : json_text) : py FinalOutputModel :=
  Return {| relevance_score := json_relevance_score t; answer := json_answer t |}.

Definition format_json_output (x : dict) : py FinalOutputModel :=
  r <- getitem x "relevance_score" ;;
  score <- extract_relevance_score r ;;
  a <- getitem x "answer" ;;
  text <- json_dumps score a ;;
  parse_result text.

Definition decline_message : string :=
  "I don't know due to no relevant content found.".

Definition conditional_answer (x : dict) : py value :=
  r <- getitem x "relevance_score" ;;
  relevance_score <- extract_relevance_score r ;;
  if py_lt relevance_score (float_of_Z 4) then
    Return (VStr decline_message)
  else
    m <- format_json_output x ;;
    Return (VModel m).

(** The gate of [conditional_answer]: the [else] branch is taken when
    [relevance_score < threshold] is false; the source fixes the threshold
    at 4. *)
Definition decide (score threshold : float) : bool :=
  negb (py_lt score threshold).

(** ** The chain *)

Definition relevance_prompt_template (question retrieved_context : string) : string :=
  nl +:+ "    Given the following question and retrieved context, determine if the context is relevant to the question."
  +:+ nl +:+ "    Provide a score from 1 to 5, where 1 is not at all relevant and 5 is highly relevant."
  +:+ nl +:+ "    Return ONLY the numeric score, without any additional text or explanation."
  +:+ nl +:+ nl +:+ "    Question: " +:+ question
  +:+ nl +:+ "    Retrieved Context: " +:+ retrieved_context
  +:+ nl +:+ nl +:+ "    Relevance Score:".

Section Chain.

(** The collaborators: the ensemble retriever, the prompt pulled from
    the hub (a function of context and question) and the chat model
    followed by [StrOutputParser]. *)
Variable ensemble_retriever : string -> list Document.
Variable prompt : string -> string -> string.
Variable llm : string -> string.

(** The dictionary that reaches the last step: both branches of the
    second [RunnableParallel] read the question and the formatted
    context of the step before. *)
Definition parallel_outputs (question : string) : dict :=
  let context := format_docs (ensemble_retriever question) in
  <["relevance_score" := VStr (llm (relevance_prompt_template question context))]>
    (<["answer" := VStr (llm (prompt context question))]> ∅).

(** [... | RunnablePassthrough().assign(answer=conditional_answer)] *)
Definition rag_chain (question : string) : py dict :=
  let x := parallel_outputs question in
  a <- conditional_answer x ;;
  Return (<["answer" := a]> x).

Definition process_user_input (question : string) : py (float * value) :=
  result <- rag_chain question ;;
  a <- getitem result "answer" ;;
  match a with
  | VModel m => Return (relevance_score m, VStr (answer m))
  | VStr _ =>
      r <- getitem result "relevance_score" ;;
      relevance_score <- py_float r ;;
      Return (relevance_score, a)
  end.

End Chain.

(** ** Rank fusion *)

(** Modelled from the spec: the origin of a passage (data model of the
    absent fusion code). *)
Inductive origin : Type := semantic | lexical.

(** Modelled from the spec: [Passage = {text, source-rank, origin}] (data
    model of the absent fusion code). The fusion reads the rank of a text
    off its position in the source list. *)
Record Passage : Type := {
  text : string;
  source_rank : nat;
  passage_origin : origin
}.

(** Modelled from the spec: the fusion itself is the library's
    [EnsembleRetriever], of which the notebook holds the constructor call
    only. Position of the first passage with the given text. *)
Fixpoint rank_in (t : string) (l : list Passage) : option nat :=
  match l with
  | [] => None
  | p :: r => if String.eqb (text p) t then Some O else option_map S (rank_in t r)
  end.

(** Modelled from the spec: [weight_source * (1 / (rank_in_source + 1))],
    in binary64 arithmetic; the rank formula of the absent fusion code. *)
Definition contribution (w : float) (rank : nat) : float :=
  SFmul prec emax w
    (SFdiv prec emax (float_of_Z 1) (float_of_Z (Z.of_nat rank + 1))).

(** Modelled from the spec: the contributions summed over every source
    list in which the text appears (absent fusion code). *)
Definition fusion_score (sem lex : list Passage) (ws wl : float) (t : string) : float :=
  match rank_in t sem, rank_in t lex with
  | Some i, Some j => SFadd prec emax (contribution ws i) (contribution wl j)
  | Some i, None => contribution ws i
  | None, Some j => contribution wl j
  | None, None => S754_zero false
  end.

(** Modelled from the spec: tie-break (a), whether the text appears in both
    sources (absent fusion code). *)
Definition in_both (sem lex : list Passage) (t : string) : bool :=
  match rank_in t sem, rank_in t lex with
  | Some _, Some _ => true
  | _, _ => false
  end.

(** Modelled from the spec: tie-break (b), the combined raw rank (absent
    fusion code). *)
Definition combined_rank (sem lex : list Passage) (t : string) : nat :=
  (default O (rank_in t sem) + default O (rank_in t lex))%nat.

(** Modelled from the spec: descending fusion score, ties broken by
    (a) both sources before one and (b) lower combined raw rank (ordering
    of the absent fusion code). [true] when [p] goes strictly before [q]. *)
Definition ranks_before (sem lex : list Passage) (ws wl : float) (p q : Passage) : bool :=
  let sp := fusion_score sem lex ws wl (text p) in
  let sq := fusion_score sem lex ws wl (text q) in
  if py_lt sq sp then true
  else if py_lt sp sq then false
  else
    match in_both sem lex (text p), in_both sem lex (text q) with
    | true, false => true
    | false, true => false
    | _, _ => (combined_rank sem lex (text p) <? combined_rank sem lex (text q))%nat
    end.

(** Modelled from the spec: deduplication on exact text, first seen kept
    (absent fusion code). *)
Fixpoint unique_by_text (l : list Passage) : list Passage :=
  match l with
  | [] => []
  | p :: r => p :: List.filter (fun q => negb (String.eqb (text q) (text p))) (unique_by_text r)
  end.

(** Modelled from the spec: one step of the ordering; [x] passes the
    leading entries that rank strictly before it (absent fusion code). *)
Fixpoint insert_ranked (before : Passage -> Passage -> bool) (x : Passage)
    (l : list Passage) : list Passage :=
  match l with
  | [] => [x]
  | y :: r => if before y x then y :: insert_ranked before x r else x :: y :: r
  end.

(** Modelled from the spec: the ordering as a stable insertion sort; of two
    passages that tie, the first seen stays first, which is tie-break (c)
    (absent fusion code). *)
Definition sort_ranked (before : Passage -> Passage -> bool) (l : list Passage) : list Passage :=
  foldr (insert_ranked before) [] l.

(** Modelled from the spec: the full ranking of the distinct passages of
    both lists, semantic first (absent fusion code). *)
Definition ranking (sem lex : list Passage) (ws wl : float) : list Passage :=
  sort_ranked (ranks_before sem lex ws wl) (unique_by_text (sem ++ lex)).

(** Modelled from the spec: [fuse(semantic, lexical, weight-semantic,
    weight-lexical, k)], the first [k] entries of the ranking (absent
    fusion code). *)
Definition fuse (sem lex : list Passage) (ws wl : float) (k : nat) : list Passage :=
  take k (ranking sem lex ws wl).


(** ** Shapes of texts *)

(** The characters of float literals: digits, signs, the point, the
    exponent mark and the letters of [inf], [infinity] and [nan]. *)
Definition float_char (c : ascii) : bool :=
  is_digit c
  || existsb (Ascii.eqb (to_lower c)) (list_ascii_of_string "+-.einftya").

Definition literal_char (c : ascii) : bool := is_underscore c || float_char c.

(** Number of places where a run of non-blank characters starts. *)
Fixpoint token_starts (blank : ascii -> bool) (in_token : bool) (s : list ascii) : nat :=
  match s with
  | [] => O
  | c :: r =>
      if blank c then token_starts blank false r
      else ((if in_token then 0 else 1) + token_starts blank true r)%nat
  end.

(** [len(s.split())] *)
Definition token_count (s : string) : nat :=
  token_starts Py_UNICODE_ISSPACE false (list_ascii_of_string s).

(** ** Collaborators for the worked examples *)

Definition sample_retriever (question : string) : list Document :=
  [ {| page_content := "Google signs renewable energy agreements." |};
    {| page_content := "Eco-friendly routing in Google Maps." |} ].

Definition sample_prompt (context question : string) : string :=
  "Context: " +:+ context +:+ nl +:+ "Question: " +:+ question.

(** A model that answers the relevance request with [judgment] and any
    other request with [draft]. *)
Definition scripted_llm (judgment draft : string) (request : string) : string :=
  if String.prefix (nl +:+ "    Given the following question") request
  then judgment else draft.

Definition sample_dict (judgment draft : string) : dict :=
  <["relevance_score" := VStr judgment]> (<["answer" := VStr draft]> ∅).

(** Modelled from the spec: a passage as a retriever hands it over. *)
Definition passage (o : origin) (rank : nat) (t : string) : Passage :=
  {| text := t; source_rank := rank; passage_origin := o |}.

(** The weight 0.5 of the notebook's [weights=[0.5, 0.5]]. *)
Definition half : float := S754_finite false 4503599627370496 (-53).

(** ** Texts of arbitrary code points

    A Python [str] in full: a list of code points. [float] first maps it
    to ASCII and then reads it as above; [strip] works on the code points
    themselves. The two tables of the Unicode database that are consulted
    from U+0080 on are parameters. *)

Definition ustr : Type := list N.

Definition ustr_of_string (s : string) : ustr := map code (list_ascii_of_string s).

Fixpoint udrop_while {A : Type} (p : A -> bool) (s : list A) : list A :=
  match s with
  | [] => []
  | c :: r => if p c then udrop_while p r else s
  end.

Definition ustrip_with {A : Type} (p : A -> bool) (s : list A) : list A :=
  rev (udrop_while p (rev (udrop_while p s))).

Fixpoint utoken_starts {A : Type} (blank : A -> bool) (in_token : bool) (s : list A) : nat :=
  match s with
  | [] => O
  | c :: r =>
      if blank c then utoken_starts blank false r
      else ((if in_token then 0 else 1) + utoken_starts blank true r)%nat
  end.

(** The float literal of [float_of_str], once the text is ASCII. *)
Definition float_of_ascii (a : list ascii) : py float :=
  match drop_underscores zero a with
  | None => Raise ValueError
  | Some t =>
      match strip_with Py_ISSPACE t with
      | [] => Raise ValueError
      | body =>
          match parse_float body with
          | Some f => Return f
          | None => Raise ValueError
          end
      end
  end.

(** The value of a decimal digit character, as the Unicode database
    records it. *)
Inductive decimal : Type := D0 | D1 | D2 | D3 | D4 | D5 | D6 | D7 | D8 | D9.

Definition decimal_value (d : decimal) : N :=
  match d with
  | D0 => 0 | D1 => 1 | D2 => 2 | D3 => 3 | D4 => 4
  | D5 => 5 | D6 => 6 | D7 => 7 | D8 => 8 | D9 => 9
  end%N.

Section Unicode.

(** [_PyUnicode_IsWhitespace] and [_PyUnicode_ToDecimalDigit] on the code
    points from U+0080 on. *)
Variable unicode_isspace : N -> bool.
Variable unicode_todecimal : N -> option decimal.

(** [Py_UNICODE_ISSPACE(ch)]: below U+0080 the answer is that of the ASCII
    table. *)
Definition ustr_isspace (c : N) : bool :=
  if (c <? 128)%N then Py_UNICODE_ISSPACE (ascii_of_N c) else unicode_isspace c.

(** [Py_UNICODE_TODECIMAL(ch)] where the loop below asks, from U+007F on:
    DEL is no digit. *)
Definition ustr_todecimal (c : N) : option decimal :=
  if (c <? 128)%N then None else unicode_todecimal c.

(** The loop of [_PyUnicode_TransformDecimalAndSpaceToASCII]: it stops at
    the first character that is neither ASCII, nor whitespace, nor a
    decimal digit, and writes ['?'] there. *)
Fixpoint transform_loop (s : ustr) : list ascii :=
  match s with
  | [] => []
  | c :: r =>
      if (c <? 127)%N then ascii_of_N c :: transform_loop r
      else if ustr_isspace c then " "%char :: transform_loop r
      else
        match ustr_todecimal c with
        | Some d => ascii_of_N (48 + decimal_value d) :: transform_loop r
        | None => ["?"%char]
        end
  end.

(** A text that is all ASCII is returned as it is. *)
Definition TransformDecimalAndSpaceToASCII (s : ustr) : list ascii :=
  if forallb (fun c => (c <? 128)%N) s then map ascii_of_N s else transform_loop s.

(** [float(s)] for a [str] of any code points. *)
Definition float_of_ustr (s : ustr) : py float :=
  float_of_ascii (TransformDecimalAndSpaceToASCII s).

(** [s.strip()] *)
Definition ustr_strip (s : ustr) : ustr := ustrip_with ustr_isspace s.

(** [extract_relevance_score] on a [str] of any code points. *)
Definition extract_relevance_score_ustr (llm_output : ustr) : py float :=
  try_except_ValueError
    (score <- float_of_ustr (ustr_strip llm_output) ;;
     Return score)
    (Return (S754_zero false)).

(** [len(s.split())] *)
Definition ustr_token_count (s : ustr) : nat := utoken_starts ustr_isspace false s.

(** One character of the loop above, without the early stop. *)
Definition transform_cp (c : N) : ascii :=
  if (c <? 127)%N then ascii_of_N c
  else if ustr_isspace c then " "%char
  else
    match ustr_todecimal c with
    | Some d => ascii_of_N (48 + decimal_value d)
    | None => "?"%char
    end.

(** The tables on U+0080 to U+00FF: the whitespace there is NEL and the
    no-break space, and no character there is a decimal digit. *)
Definition latin1_tables : Prop :=
  forall c, (128 <= c < 256)%N ->
    unicode_isspace c = ((c =? 133) || (c =? 160))%N
    /\ unicode_todecimal c = None.

End Unicode.

(** ** Decimal float literals, as written

    [sign? digits? (. digits?)? ((e|E) sign? digits)?] with a digit before
    or after the point; digits are given by their values. *)

Record float_literal : Type := {
  lit_sign : option bool;
  lit_int : list N;
  lit_frac : option (list N);
  lit_exp : option (bool * option bool * list N)
}.

Definition digit_char (d : N) : ascii := ascii_of_N (48 + d).

Definition sign_text (sg : option bool) : list ascii :=
  match sg with
  | None => []
  | Some true => ["-"%char]
  | Some false => ["+"%char]
  end.

Definition frac_digits (l : float_literal) : list N :=
  match lit_frac l with
  | None => []
  | Some fp => fp
  end.

Definition exponent_text (e : option (bool * option bool * list N)) : list ascii :=
  match e with
  | None => []
  | Some (upper, sg, ds) =>
      (if upper then "E"%char else "e"%char) :: sign_text sg ++ map digit_char ds
  end.

Definition literal_text (l : float_literal) : list ascii :=
  sign_text (lit_sign l)
  ++ map digit_char (lit_int l)
  ++ match lit_frac l with
     | None => []
     | Some fp => "."%char :: map digit_char fp
     end
  ++ exponent_text (lit_exp l).

Definition all_digits (ds : list N) : bool := forallb (fun d => (d <? 10)%N) ds.

Definition literal_ok (l : float_literal) : bool :=
  all_digits (lit_int l) && all_digits (frac_digits l)
  && negb (Nat.eqb (List.length (lit_int l ++ frac_digits l)) 0)
  && match lit_exp l with
     | None => true
     | Some (_, _, ds) => all_digits ds && negb (Nat.eqb (List.length ds) 0)
     end.

(** The number a digit sequence writes. *)
Definition number (ds : list N) : N := fold_left (fun acc d => (10 * acc + d)%N) ds 0%N.

Definition exponent_value (e : option (bool * option bool * list N)) : Z :=
  match e with
  | None => 0
  | Some (_, Some true, ds) => - Z.of_N (number ds)
  | Some (_, _, ds) => Z.of_N (number ds)
  end.

(** The float the literal denotes: the correctly rounded value of
    [(-1)^sign * digits * 10^(exponent - number of fraction digits)]. *)
Definition literal_value (l : float_literal) : float :=
  decimal_to_float
    (match lit_sign l with Some true => true | _ => false end)
    (number (lit_int l ++ frac_digits l))
    (exponent_value (lit_exp l) - Z.of_nat (List.length (frac_digits l))).

(** What a text starts with, for the parser's look-ahead. *)
Definition starts_unsigned (s : list ascii) : bool :=
  match s with
  | [] => true
  | c :: _ => negb (Ascii.eqb c "-") && negb (Ascii.eqb c "+")
  end.

Definition starts_without_digit (s : list ascii) : bool :=
  match s with
  | [] => true
  | c :: _ => negb (is_digit c)
  end.

(** ** Order keys

    Away from NaN, [SFcompare] is the lexicographic order of these keys:
    class (infinities, sign of finite values, zero), then exponent, then
    mantissa, the last two negated for negative values. *)

Definition float_key (f : float) : Z * Z * Z :=
  match f with
  | S754_nan => (0, 0, 0)
  | S754_zero _ => (0, 0, 0)
  | S754_infinity true => (-2, 0, 0)
  | S754_infinity false => (2, 0, 0)
  | S754_finite true m e => (-1, - e, Zneg m)
  | S754_finite false m e => (1, e, Zpos m)
  end.

Definition lex_compare (x y : Z * Z * Z) : comparison :=
  let '(a1, b1, c1) := x in
  let '(a2, b2, c2) := y in
  match a1 ?= a2 with
  | Eq => match b1 ?= b2 with
          | Eq => c1 ?= c2
          | r => r
          end
  | r => r
  end.

(** * Properties *)

(** ** Float comparison *)

Lemma SFcompare_key (a b : float) :
  is_nan a = false -> is_nan b = false ->
  SFcompare a b = Some (lex_compare (float_key a) (float_key b)).
Proof.
  destruct a as [sa|sa| |sa ma ea], b as [sb|sb| |sb mb eb];
    try discriminate; intros _ _;
    try (destruct sa; reflexivity);
    try (destruct sb; reflexivity);
    try (destruct sa, sb; reflexivity).
  destruct sa, sb; try reflexivity; cbn [SFcompare float_key lex_compare].
  rewrite Z.compare_opp. cbn [Z.compare].
  rewrite (Z.compare_antisym ea eb).
  destruct (ea ?= eb); reflexivity.
Qed.

Lemma SFcompare_nan_l (a b : float) : is_nan a = true -> SFcompare a b = None.
Proof. destruct a; try discriminate. reflexivity. Qed.

Lemma SFcompare_nan_r (a b : float) : is_nan b = true -> SFcompare a b = None.
Proof. destruct b; try discriminate. destruct a; reflexivity. Qed.

Lemma SFcompare_some_not_nan (a b : float) (c : comparison) :
  SFcompare a b = Some c -> is_nan a = false /\ is_nan b = false.
Proof.
  intros H. split.
  - destruct (is_nan a) eqn:E; [|reflexivity].
    rewrite (SFcompare_nan_l a b E) in H. discriminate.
  - destruct (is_nan b) eqn:E; [|reflexivity].
    rewrite (SFcompare_nan_r a b E) in H. discriminate.
Qed.

Ltac lex_cases :=
  repeat match goal with
         | |- context [?x ?= ?y] =>
             let E := fresh "E" in
             destruct (Z.compare_spec x y) as [E|E|E]
         | H : context [?x ?= ?y] |- _ =>
             let E := fresh "E" in
             destruct (Z.compare_spec x y) as [E|E|E]
         end; try discriminate; try congruence; try lia.

Lemma lex_compare_le_lt_trans (x y z : Z * Z * Z) :
  lex_compare x y <> Gt -> lex_compare y z = Lt -> lex_compare x z = Lt.
Proof.
  destruct x as [[a1 b1] c1], y as [[a2 b2] c2], z as [[a3 b3] c3].
  unfold lex_compare. intros H1 H2. lex_cases.
Qed.

Lemma lex_compare_antisym (x y : Z * Z * Z) :
  lex_compare y x = CompOpp (lex_compare x y).
Proof.
  destruct x as [[a1 b1] c1], y as [[a2 b2] c2].
  unfold lex_compare.
  rewrite (Z.compare_antisym a1 a2), (Z.compare_antisym b1 b2), (Z.compare_antisym c1 c2).
  destruct (a1 ?= a2), (b1 ?= b2), (c1 ?= c2); reflexivity.
Qed.

Lemma py_le_spec (a b : float) :
  py_le a b = true <->
  is_nan a = false /\ is_nan b = false /\ lex_compare (float_key a) (float_key b) <> Gt.
Proof.
  unfold py_le, SFleb. split.
  - intros H. destruct (SFcompare a b) as [c|] eqn:E; [|discriminate].
    destruct (SFcompare_some_not_nan _ _ _ E) as [Ha Hb].
    rewrite (SFcompare_key a b Ha Hb) in E. injection E as E.
    repeat split; trivial. rewrite E. destruct c; congruence.
  - intros (Ha & Hb & H). rewrite (SFcompare_key a b Ha Hb).
    destruct (lex_compare (float_key a) (float_key b)); congruence.
Qed.

Lemma py_lt_spec (a b : float) :
  py_lt a b = true <->
  is_nan a = false /\ is_nan b = false /\ lex_compare (float_key a) (float_key b) = Lt.
Proof.
  unfold py_lt, SFltb. split.
  - intros H. destruct (SFcompare a b) as [c|] eqn:E; [|discriminate].
    destruct (SFcompare_some_not_nan _ _ _ E) as [Ha Hb].
    rewrite (SFcompare_key a b Ha Hb) in E. injection E as E.
    repeat split; trivial. rewrite E. destruct c; congruence.
  - intros (Ha & Hb & H). rewrite (SFcompare_key a b Ha Hb), H. reflexivity.
Qed.

Lemma py_le_lt_trans (a b c : float) :
  py_le a b = true -> py_lt b c = true -> py_lt a c = true.
Proof.
  rewrite py_le_spec, !py_lt_spec.
  intros (Ha & _ & H1) (_ & Hc & H2). repeat split; trivial.
  eapply lex_compare_le_lt_trans; eassumption.
Qed.

Lemma py_ge_not_lt (a b : float) : py_ge a b = true -> py_lt a b = false.
Proof.
  unfold py_ge. fold (py_le b a). rewrite py_le_spec. intros (Hb & Ha & H).
  destruct (py_lt a b) eqn:E; [|reflexivity].
  apply py_lt_spec in E. destruct E as (_ & _ & E).
  rewrite lex_compare_antisym, E in H. now elim H.
Qed.

(** Away from NaN the gate is the comparison [score >= threshold]. *)
Lemma decide_ge (score t : float) :
  is_nan score = false -> is_nan t = false -> decide score t = py_ge score t.
Proof.
  intros Hs Ht. unfold decide, py_ge, py_lt, SFltb, SFleb.
  rewrite (SFcompare_key score t Hs Ht), (SFcompare_key t score Ht Hs).
  rewrite (lex_compare_antisym (float_key score) (float_key t)).
  destruct (lex_compare (float_key score) (float_key t)); reflexivity.
Qed.

(** A NaN score passes the gate whatever the threshold. *)
Lemma decide_nan (t : float) : decide S754_nan t = true.
Proof. reflexivity. Qed.

(** ** Whitespace and tokens *)

(** Facts about single characters are settled on the 256 of them. *)
Ltac by_ascii c :=
  destruct c as [[] [] [] [] [] [] [] []]; vm_compute;
  try reflexivity; try discriminate; try congruence.

Lemma Py_ISSPACE_unicode (c : ascii) :
  Py_ISSPACE c = true -> Py_UNICODE_ISSPACE c = true.
Proof. by_ascii c. Qed.

Lemma blank_not_literal (c : ascii) :
  Py_ISSPACE c = true -> literal_char c = false.
Proof. by_ascii c. Qed.

Lemma transform_char_blank (c : ascii) :
  (28 <=? code c)%N && (code c <=? 31)%N = false ->
  Py_ISSPACE (transform_char c) = Py_UNICODE_ISSPACE c.
Proof. by_ascii c. Qed.

Lemma transform_char_separator (c : ascii) :
  (28 <=? code c)%N && (code c <=? 31)%N = true ->
  Py_ISSPACE (transform_char c) || literal_char (transform_char c) = false.
Proof. by_ascii c. Qed.

Lemma transform_char_other (c : ascii) :
  Py_UNICODE_ISSPACE c = false -> literal_char c = false ->
  Py_ISSPACE (transform_char c) || literal_char (transform_char c) = false.
Proof. by_ascii c. Qed.

Lemma drop_while_split (p : ascii -> bool) (s : list ascii) :
  exists l, s = l ++ drop_while p s /\ forallb p l = true.
Proof.
  induction s as [|c r [l [E F]]]; cbn.
  - now exists [].
  - destruct (p c) eqn:Hc.
    + exists (c :: l). cbn. rewrite Hc, F. split; [congruence | reflexivity].
    + now exists [].
Qed.

Lemma forallb_rev_true (p : ascii -> bool) (l : list ascii) :
  forallb p l = true -> forallb p (rev l) = true.
Proof.
  rewrite !forallb_forall. intros H x Hx. apply H. now apply in_rev.
Qed.

Lemma strip_with_split (p : ascii -> bool) (s : list ascii) :
  exists l r, s = l ++ strip_with p s ++ r /\ forallb p l = true /\ forallb p r = true.
Proof.
  destruct (drop_while_split p s) as [l [E F]].
  destruct (drop_while_split p (rev (drop_while p s))) as [r [E' F']].
  exists l, (rev r). repeat split; trivial.
  - unfold strip_with. rewrite <- rev_app_distr, <- E', rev_involutive. exact E.
  - now apply forallb_rev_true.
Qed.

Lemma drop_while_all (p : ascii -> bool) (s : list ascii) :
  forallb p s = true -> drop_while p s = [].
Proof.
  induction s as [|c r IH]; cbn; [reflexivity|].
  destruct (p c); [exact IH | discriminate].
Qed.

Lemma strip_with_all (p : ascii -> bool) (s : list ascii) :
  forallb p s = true -> strip_with p s = [].
Proof. intros H. unfold strip_with. now rewrite (drop_while_all p s H). Qed.

Lemma in_strip_with (p : ascii -> bool) (s : list ascii) (c : ascii) :
  In c s -> p c = false -> In c (strip_with p s).
Proof.
  intros Hin Hc. destruct (strip_with_split p s) as (l & r & E & Fl & Fr).
  rewrite E in Hin. rewrite !in_app_iff in Hin.
  rewrite forallb_forall in Fl, Fr.
  destruct Hin as [H|[H|H]]; trivial.
  - apply Fl in H. congruence.
  - apply Fr in H. congruence.
Qed.

Lemma token_starts_blanks (blank : ascii -> bool) (b : bool) (r : list ascii) :
  forallb blank r = true -> token_starts blank b r = O.
Proof.
  revert b. induction r as [|c r IH]; intros b; cbn; [reflexivity|].
  destruct (blank c); [apply IH | discriminate].
Qed.

Lemma token_starts_blank_prefix (blank : ascii -> bool) (l x : list ascii) :
  forallb blank l = true ->
  token_starts blank false (l ++ x) = token_starts blank false x.
Proof.
  induction l as [|c l IH]; cbn; [reflexivity|].
  destruct (blank c); [exact IH | discriminate].
Qed.

Lemma token_starts_blank_suffix (blank : ascii -> bool) (b : bool) (x r : list ascii) :
  forallb blank r = true ->
  token_starts blank b (x ++ r) = token_starts blank b x.
Proof.
  intros Hr. revert b. induction x as [|c x IH]; intros b; cbn.
  - now apply token_starts_blanks.
  - destruct (blank c); now rewrite IH.
Qed.

Lemma token_starts_solid (blank : ascii -> bool) (body : list ascii) :
  forallb (fun c => negb (blank c)) body = true ->
  token_starts blank true body = O.
Proof.
  induction body as [|c r IH]; cbn; [reflexivity|].
  destruct (blank c); cbn; [discriminate | exact IH].
Qed.

Lemma token_starts_one (blank : ascii -> bool) (body : list ascii) :
  body <> [] -> forallb (fun c => negb (blank c)) body = true ->
  token_starts blank false body = 1%nat.
Proof.
  destruct body as [|c r]; [congruence|]. intros _. cbn.
  destruct (blank c); cbn; [discriminate|].
  intros H. now rewrite token_starts_solid.
Qed.

Lemma token_starts_strip (blank : ascii -> bool) (s : list ascii) :
  token_starts blank false (strip_with blank s) = token_starts blank false s.
Proof.
  destruct (strip_with_split blank s) as (l & r & E & Fl & Fr).
  rewrite E at 2.
  now rewrite token_starts_blank_prefix, token_starts_blank_suffix.
Qed.

Lemma token_starts_map (p q : ascii -> bool) (f : ascii -> ascii) (b : bool) (s : list ascii) :
  (forall c, In c s -> q (f c) = p c) ->
  token_starts q b (map f s) = token_starts p b s.
Proof.
  revert b. induction s as [|c r IH]; intros b H; cbn; [reflexivity|].
  rewrite (H c (or_introl eq_refl)).
  destruct (p c); rewrite IH; trivial; intros; apply H; now right.
Qed.

(** ** The float parser *)

Lemma digit_float_char (c : ascii) : is_digit c = true -> float_char c = true.
Proof. by_ascii c. Qed.

Lemma digit_not_blank (c : ascii) : is_digit c = true -> Py_ISSPACE c = false.
Proof. by_ascii c. Qed.

Lemma float_char_not_blank (c : ascii) : float_char c = true -> Py_ISSPACE c = false.
Proof. by_ascii c. Qed.

Lemma underscore_not_blank (c : ascii) : is_underscore c = true -> Py_ISSPACE c = false.
Proof. by_ascii c. Qed.

Lemma lower_float_char (c : ascii) :
  existsb (Ascii.eqb (to_lower c)) (list_ascii_of_string "einftya") = true ->
  float_char c = true.
Proof. by_ascii c. Qed.

Lemma span_digits_spec (s ds rest : list ascii) :
  span_digits s = (ds, rest) -> s = ds ++ rest /\ forallb is_digit ds = true.
Proof.
  revert ds rest. induction s as [|c r IH]; intros ds rest; cbn.
  - intros [= <- <-]. now split.
  - destruct (is_digit c) eqn:Hc.
    + destruct (span_digits r) as [ds' rest'].
      intros [= <- <-]. destruct (IH ds' rest' eq_refl) as [-> F].
      cbn. now rewrite Hc, F.
    + intros [= <- <-]. now split.
Qed.

Lemma digits_float_chars (ds : list ascii) :
  forallb is_digit ds = true -> forallb float_char ds = true.
Proof.
  rewrite !forallb_forall. intros H c Hc. apply digit_float_char. now apply H.
Qed.

Lemma parse_sign_spec (s r : list ascii) (neg : bool) :
  parse_sign s = (neg, r) ->
  s = r \/ exists c, s = c :: r /\ float_char c = true.
Proof.
  destruct s as [|c s']; cbn.
  - intros [= <- <-]. now left.
  - destruct (Ascii.eqb c "-") eqn:E1; [apply Ascii.eqb_eq in E1; subst c|].
    + intros [= <- <-]. right. now exists "-"%char.
    + destruct (Ascii.eqb c "+") eqn:E2; [apply Ascii.eqb_eq in E2; subst c|].
      * intros [= <- <-]. right. now exists "+"%char.
      * apply Ascii.eqb_neq in E1, E2.
        destruct c as [[] [] [] [] [] [] [] []]; try congruence;
          intros [= <- <-]; now left.
Qed.

Lemma parse_sign_chars (s r : list ascii) (neg : bool) :
  parse_sign s = (neg, r) -> forallb float_char r = true -> forallb float_char s = true.
Proof.
  intros H F. destruct (parse_sign_spec s r neg H) as [->|(c & -> & Hc)]; trivial.
  cbn. now rewrite Hc.
Qed.

Lemma parse_exponent_chars (s : list ascii) (e : Z) :
  parse_exponent s = Some e -> forallb float_char s = true.
Proof.
  destruct s as [|c r]; [reflexivity|]. cbn [parse_exponent].
  destruct (Ascii.eqb (to_lower c) "e") eqn:Hc; [|discriminate].
  destruct (parse_sign r) as [neg r1] eqn:Hs.
  destruct (span_digits r1) as [ds rest] eqn:Hd.
  destruct ds as [|d ds]; [discriminate|]. destruct rest; [|discriminate].
  intros _. apply span_digits_spec in Hd. destruct Hd as [-> F].
  cbn [forallb]. rewrite andb_true_iff. split.
  - apply lower_float_char. cbn [list_ascii_of_string existsb]. now rewrite Hc.
  - apply (parse_sign_chars r _ neg Hs). rewrite app_nil_r.
    now apply digits_float_chars.
Qed.

Lemma parse_decimal_chars (s : list ascii) (me : N * Z) :
  parse_decimal s = Some me -> forallb float_char s = true.
Proof.
  unfold parse_decimal.
  destruct (span_digits s) as [ip r1] eqn:Hi.
  apply span_digits_spec in Hi. destruct Hi as [-> Fi].
  assert (Hdot : float_char "." = true) by reflexivity.
  destruct r1 as [|c r].
  - intros _. rewrite app_nil_r. now apply digits_float_chars.
  - destruct (Ascii.eqb c ".") eqn:Ec.
    + apply Ascii.eqb_eq in Ec. subst c.
      destruct (span_digits r) as [fp r2] eqn:Hf.
      apply span_digits_spec in Hf. destruct Hf as [-> Ff].
      intros H.
      assert (He : exists e, parse_exponent r2 = Some e).
      { revert H. destruct (ip ++ fp); [discriminate|].
        destruct (parse_exponent r2) as [e|]; [eauto | discriminate]. }
      destruct He as [e He].
      rewrite !forallb_app. cbn [forallb].
      rewrite forallb_app, (digits_float_chars _ Fi), (digits_float_chars _ Ff), Hdot.
      now rewrite (parse_exponent_chars _ _ He).
    + assert (E : match c :: r with
                  | "."%char :: r0 => span_digits r0
                  | _ => ([], c :: r)
                  end = ([], c :: r)).
      { apply Ascii.eqb_neq in Ec.
        destruct c as [[] [] [] [] [] [] [] []]; try reflexivity; congruence. }
      rewrite E. intros H.
      assert (He : exists e, parse_exponent (c :: r) = Some e).
      { revert H. destruct (ip ++ []); [discriminate|].
        destruct (parse_exponent (c :: r)) as [e|]; [eauto | discriminate]. }
      destruct He as [e He].
      rewrite forallb_app, (digits_float_chars _ Fi).
      now rewrite (parse_exponent_chars _ _ He).
Qed.

Lemma lowered_chars (s : list ascii) (w : string) :
  String.eqb (string_of_list_ascii (map to_lower s)) w = true ->
  forallb (fun c => existsb (Ascii.eqb c) (list_ascii_of_string "einftya"))
    (list_ascii_of_string w) = true ->
  forallb float_char s = true.
Proof.
  intros E H. apply String.eqb_eq in E.
  apply (f_equal list_ascii_of_string) in E.
  rewrite list_ascii_of_string_of_list_ascii in E. rewrite <- E in H. clear E.
  induction s as [|c r IH]; [reflexivity|]. cbn in H |- *.
  apply andb_true_iff in H. destruct H as [H1 H2].
  rewrite (IH H2), andb_true_r. apply lower_float_char. exact H1.
Qed.

Lemma parse_inf_or_nan_chars (neg : bool) (s : list ascii) (f : float) :
  parse_inf_or_nan neg s = Some f -> forallb float_char s = true.
Proof.
  unfold parse_inf_or_nan.
  destruct (String.eqb _ "inf") eqn:E1; [intros _; now apply (lowered_chars s "inf")|].
  destruct (String.eqb _ "infinity") eqn:E2;
    [intros _; now apply (lowered_chars s "infinity")|].
  destruct (String.eqb _ "nan") eqn:E3; [intros _; now apply (lowered_chars s "nan")|].
  discriminate.
Qed.

Lemma parse_float_chars (s : list ascii) (f : float) :
  parse_float s = Some f -> forallb float_char s = true.
Proof.
  unfold parse_float. destruct (parse_sign s) as [neg r] eqn:Hs.
  destruct (parse_decimal r) as [[m e]|] eqn:Hd.
  - intros _. apply (parse_sign_chars s r neg Hs). now apply (parse_decimal_chars r (m, e)).
  - intros H. apply (parse_sign_chars s r neg Hs). now apply (parse_inf_or_nan_chars neg r f).
Qed.

Lemma drop_underscores_chars (prev : ascii) (a t : list ascii) :
  drop_underscores prev a = Some t ->
  forallb (fun c => Py_ISSPACE c || float_char c) t = true ->
  forallb (fun c => Py_ISSPACE c || literal_char c) a = true.
Proof.
  revert prev t. induction a as [|c r IH]; intros prev t; cbn; [reflexivity|].
  unfold literal_char at 1.
  destruct (is_underscore c) eqn:Hu.
  - destruct (is_digit prev); [|discriminate]. intros H F.
    rewrite orb_true_r. cbn. exact (IH _ _ H F).
  - destruct (is_underscore prev && negb (is_digit c)); [discriminate|].
    destruct (drop_underscores c r) as [t'|] eqn:E; [|discriminate].
    intros [= <-]. cbn. intros F. apply andb_true_iff in F. destruct F as [F1 F2].
    rewrite F1. cbn. exact (IH _ _ E F2).
Qed.

Lemma drop_underscores_tokens (prev : ascii) (b : bool) (a t : list ascii) :
  drop_underscores prev a = Some t ->
  (is_digit prev = true -> b = true) ->
  token_starts Py_ISSPACE b a = token_starts Py_ISSPACE b t.
Proof.
  revert prev b t. induction a as [|c r IH]; intros prev b t; cbn.
  - destruct (is_underscore prev); [discriminate|]. now intros [= <-].
  - destruct (is_underscore c) eqn:Hu.
    + destruct (is_digit prev) eqn:Hp; [|discriminate]. intros H Hb.
      rewrite (underscore_not_blank c Hu), (Hb eq_refl). cbn.
      apply (IH c true t H). intros Hd. reflexivity.
    + destruct (is_underscore prev && negb (is_digit c)); [discriminate|].
      destruct (drop_underscores c r) as [t'|] eqn:E; [|discriminate].
      intros [= <-] Hb. cbn.
      destruct (Py_ISSPACE c) eqn:Hc.
      * apply (IH c false t' E). intros Hd.
        rewrite (digit_not_blank c Hd) in Hc. discriminate.
      * f_equal. apply (IH c true t' E). reflexivity.
Qed.

Lemma float_of_str_raises (s : string) (e : exn) :
  float_of_str s = Raise e -> e = ValueError.
Proof.
  unfold float_of_str.
  destruct (drop_underscores _ _); [|congruence].
  destruct (strip_with _ _); [congruence|].
  destruct (parse_float _); congruence.
Qed.

(** A text that [float] accepts is one run of literal characters between
    blanks. *)
Lemma float_of_str_shape (s : string) (f : float) :
  float_of_str s = Return f ->
  let a := map transform_char (list_ascii_of_string s) in
  token_starts Py_ISSPACE false a = 1%nat
  /\ forallb (fun c => Py_ISSPACE c || literal_char c) a = true.
Proof.
  unfold float_of_str. cbv zeta.
  destruct (drop_underscores zero _) as [t|] eqn:Hd; [|discriminate].
  destruct (strip_with_split Py_ISSPACE t) as (l & r & E & Fl & Fr).
  destruct (strip_with Py_ISSPACE t) as [|c body] eqn:Hb; [discriminate|].
  destruct (parse_float (c :: body)) as [g|] eqn:Hp; [|discriminate].
  intros _. apply parse_float_chars in Hp.
  assert (Hsolid : forallb (fun c => negb (Py_ISSPACE c)) (c :: body) = true).
  { rewrite forallb_forall in Hp |- *. intros x Hx.
    now rewrite (float_char_not_blank x (Hp x Hx)). }
  split.
  - rewrite (drop_underscores_tokens zero false _ t Hd) by discriminate.
    rewrite E, token_starts_blank_prefix, token_starts_blank_suffix by assumption.
    now apply token_starts_one.
  - apply (drop_underscores_chars zero _ t Hd).
    rewrite E, !forallb_app, !andb_true_iff. repeat split.
    + rewrite forallb_forall in Fl |- *. intros x Hx. now rewrite (Fl x Hx).
    + rewrite forallb_forall in Hp |- *. intros x Hx.
      now rewrite (Hp x Hx), orb_true_r.
    + rewrite forallb_forall in Fr |- *. intros x Hx. now rewrite (Fr x Hx).
Qed.

(** ** [extract_relevance_score] *)

Lemma strip_chars (s : string) :
  list_ascii_of_string (strip s)
  = strip_with Py_UNICODE_ISSPACE (list_ascii_of_string s).
Proof. unfold strip. apply list_ascii_of_string_of_list_ascii. Qed.

Lemma extract_relevance_score_str (s : string) :
  extract_relevance_score (VStr s)
  = Return (match float_of_str (strip s) with
            | Return f => f
            | Raise _ => S754_zero false
            end).
Proof.
  unfold extract_relevance_score, str_strip. cbn.
  destruct (float_of_str (strip s)) as [f|e] eqn:E; cbn; [reflexivity|].
  now rewrite (float_of_str_raises _ _ E).
Qed.

Lemma not_float_raises (s : string) :
  (forall f, float_of_str s <> Return f) -> float_of_str s = Raise ValueError.
Proof.
  intros H. destruct (float_of_str s) as [f|e] eqn:E.
  - now elim (H f).
  - now rewrite (float_of_str_raises _ _ E).
Qed.

Lemma float_of_str_blank (s : string) :
  forallb Py_UNICODE_ISSPACE (list_ascii_of_string s) = true ->
  float_of_str (strip s) = Raise ValueError.
Proof.
  intros H. unfold float_of_str. rewrite strip_chars, (strip_with_all _ _ H).
  reflexivity.
Qed.

Lemma float_of_str_foreign_char (s : string) (c : ascii) :
  In c (list_ascii_of_string s) ->
  Py_UNICODE_ISSPACE c = false -> literal_char c = false ->
  float_of_str (strip s) = Raise ValueError.
Proof.
  intros Hin Hs Hl. apply not_float_raises. intros f Hf.
  destruct (float_of_str_shape _ _ Hf) as [_ F]. rewrite strip_chars in F.
  rewrite forallb_forall in F.
  specialize (F (transform_char c)
                (in_map transform_char _ c (in_strip_with _ _ c Hin Hs))).
  rewrite (transform_char_other c Hs Hl) in F. discriminate.
Qed.

Lemma float_of_str_multi_token (s : string) :
  (2 <= token_count s)%nat -> float_of_str (strip s) = Raise ValueError.
Proof.
  intros Ht. apply not_float_raises. intros f Hf.
  destruct (float_of_str_shape _ _ Hf) as [T F]. rewrite strip_chars in T, F.
  set (a := strip_with Py_UNICODE_ISSPACE (list_ascii_of_string s)) in *.
  destruct (existsb (fun c => (28 <=? code c)%N && (code c <=? 31)%N) a) eqn:Hsep.
  - apply existsb_exists in Hsep. destruct Hsep as (c & Hc & Hsep).
    rewrite forallb_forall in F.
    specialize (F (transform_char c) (in_map transform_char _ c Hc)).
    rewrite (transform_char_separator c Hsep) in F. discriminate.
  - rewrite (token_starts_map Py_UNICODE_ISSPACE) in T.
    + unfold a in T. rewrite token_starts_strip in T.
      unfold token_count in Ht. lia.
    + intros c Hc. apply transform_char_blank.
      destruct ((28 <=? code c)%N && (code c <=? 31)%N) eqn:E; [|reflexivity].
      assert (X : existsb (fun c => (28 <=? code c)%N && (code c <=? 31)%N) a = true)
        by (apply existsb_exists; eauto).
      congruence.
Qed.


(** ** [extract_relevance_score] on every text *)

(** *** Lists of any characters *)

Lemma udrop_while_ascii (p : ascii -> bool) (s : list ascii) :
  drop_while p s = udrop_while p s.
Proof. induction s as [|c s IH]; cbn; [reflexivity|]. now rewrite IH. Qed.

Lemma strip_with_ascii (p : ascii -> bool) (s : list ascii) :
  strip_with p s = ustrip_with p s.
Proof. unfold strip_with, ustrip_with. now rewrite !udrop_while_ascii. Qed.

Lemma utoken_starts_ascii (p : ascii -> bool) (b : bool) (s : list ascii) :
  token_starts p b s = utoken_starts p b s.
Proof.
  revert b. induction s as [|c s IH]; intros b; cbn; [reflexivity|].
  now rewrite !IH.
Qed.

Section Lists.

Context {A : Type}.
Variable p : A -> bool.

Lemma forallb_rev_any (l : list A) : forallb p l = true -> forallb p (rev l) = true.
Proof.
  rewrite !forallb_forall. intros H y Hy. apply H. now apply in_rev.
Qed.

Lemma udrop_while_split (s : list A) :
  exists l, s = l ++ udrop_while p s /\ forallb p l = true.
Proof.
  induction s as [|c r [l [E F]]]; cbn.
  - now exists [].
  - destruct (p c) eqn:Hc.
    + exists (c :: l). cbn. rewrite Hc, F. split; [congruence | reflexivity].
    + now exists [].
Qed.

Lemma ustrip_with_split (s : list A) :
  exists l r, s = l ++ ustrip_with p s ++ r /\ forallb p l = true /\ forallb p r = true.
Proof.
  destruct (udrop_while_split s) as [l [E F]].
  destruct (udrop_while_split (rev (udrop_while p s))) as [r [E' F']].
  exists l, (rev r). repeat split; trivial.
  - unfold ustrip_with. rewrite <- rev_app_distr, <- E', rev_involutive. exact E.
  - now apply forallb_rev_any.
Qed.

Lemma udrop_while_all (s : list A) : forallb p s = true -> udrop_while p s = [].
Proof.
  induction s as [|c r IH]; cbn; [reflexivity|].
  destruct (p c); [exact IH | discriminate].
Qed.

Lemma ustrip_with_all (s : list A) : forallb p s = true -> ustrip_with p s = [].
Proof. intros H. unfold ustrip_with. now rewrite (udrop_while_all s H). Qed.

Lemma in_ustrip_with (s : list A) (c : A) :
  In c s -> p c = false -> In c (ustrip_with p s).
Proof.
  intros Hin Hc. destruct (ustrip_with_split s) as (l & r & E & Fl & Fr).
  rewrite E in Hin. rewrite !in_app_iff in Hin.
  rewrite forallb_forall in Fl, Fr.
  destruct Hin as [H|[H|H]]; trivial.
  - apply Fl in H. congruence.
  - apply Fr in H. congruence.
Qed.

Lemma udrop_while_blank_prefix (l s : list A) :
  forallb p l = true -> udrop_while p (l ++ s) = udrop_while p s.
Proof.
  induction l as [|c l IH]; cbn; [reflexivity|].
  destruct (p c); [exact IH | discriminate].
Qed.

Lemma udrop_while_app (s r : list A) :
  udrop_while p (s ++ r)
  = match udrop_while p s with
    | [] => udrop_while p r
    | z => z ++ r
    end.
Proof.
  induction s as [|c s IH]; cbn.
  - now destruct (udrop_while p r).
  - destruct (p c); [exact IH | reflexivity].
Qed.

Lemma ustrip_with_pad (l s r : list A) :
  forallb p l = true -> forallb p r = true ->
  ustrip_with p (l ++ s ++ r) = ustrip_with p s.
Proof.
  intros Hl Hr. unfold ustrip_with.
  rewrite (udrop_while_blank_prefix l _ Hl), udrop_while_app.
  destruct (udrop_while p s) as [|c z] eqn:E.
  - now rewrite (udrop_while_all r Hr).
  - rewrite rev_app_distr.
    now rewrite (udrop_while_blank_prefix (rev r) _ (forallb_rev_any r Hr)).
Qed.

Lemma ustrip_with_solid (s : list A) :
  forallb (fun c => negb (p c)) s = true -> ustrip_with p s = s.
Proof.
  intros H.
  assert (D : forall t, forallb (fun c => negb (p c)) t = true -> udrop_while p t = t).
  { intros [|c t]; cbn; [reflexivity|]. destruct (p c); [discriminate | reflexivity]. }
  unfold ustrip_with. rewrite (D s H), D, rev_involutive; [reflexivity|].
  rewrite forallb_forall in H |- *. intros c Hc. apply H. now apply in_rev.
Qed.

Lemma utoken_starts_blanks (b : bool) (r : list A) :
  forallb p r = true -> utoken_starts p b r = O.
Proof.
  revert b. induction r as [|c r IH]; intros b; cbn; [reflexivity|].
  destruct (p c); [apply IH | discriminate].
Qed.

Lemma utoken_starts_blank_prefix (l s : list A) :
  forallb p l = true ->
  utoken_starts p false (l ++ s) = utoken_starts p false s.
Proof.
  induction l as [|c l IH]; cbn; [reflexivity|].
  destruct (p c); [exact IH | discriminate].
Qed.

Lemma utoken_starts_blank_suffix (b : bool) (s r : list A) :
  forallb p r = true ->
  utoken_starts p b (s ++ r) = utoken_starts p b s.
Proof.
  intros Hr. revert b. induction s as [|c s IH]; intros b; cbn.
  - now apply utoken_starts_blanks.
  - destruct (p c); now rewrite IH.
Qed.

Lemma utoken_starts_strip (s : list A) :
  utoken_starts p false (ustrip_with p s) = utoken_starts p false s.
Proof.
  destruct (ustrip_with_split s) as (l & r & E & Fl & Fr).
  rewrite E at 2.
  now rewrite utoken_starts_blank_prefix, utoken_starts_blank_suffix.
Qed.

End Lists.

Section Maps.

Context {A B : Type}.
Variable p : A -> bool.
Variable q : B -> bool.
Variable f : A -> B.

Lemma utoken_starts_map (b : bool) (s : list A) :
  (forall c, In c s -> q (f c) = p c) ->
  utoken_starts q b (map f s) = utoken_starts p b s.
Proof.
  revert b. induction s as [|c r IH]; intros b H; cbn; [reflexivity|].
  rewrite (H c (or_introl eq_refl)).
  destruct (p c); rewrite IH; trivial; intros; apply H; now right.
Qed.

Lemma udrop_while_map (s : list A) :
  (forall c, In c s -> q (f c) = p c) ->
  udrop_while q (map f s) = map f (udrop_while p s).
Proof.
  induction s as [|c s IH]; intros H; cbn; [reflexivity|].
  rewrite (H c (or_introl eq_refl)).
  destruct (p c); [|reflexivity]. apply IH. intros; apply H; now right.
Qed.

Lemma udrop_while_incl (s : list A) (c : A) : In c (udrop_while p s) -> In c s.
Proof.
  induction s as [|d s IH]; cbn; [trivial|].
  destruct (p d); [right; now apply IH | trivial].
Qed.

Lemma ustrip_with_map (s : list A) :
  (forall c, In c s -> q (f c) = p c) ->
  ustrip_with q (map f s) = map f (ustrip_with p s).
Proof.
  intros H. unfold ustrip_with.
  rewrite (udrop_while_map s H), <- map_rev.
  rewrite udrop_while_map.
  - now rewrite map_rev.
  - intros c Hc. apply H. apply in_rev in Hc. now apply udrop_while_incl in Hc.
Qed.

End Maps.

(** *** The float literal of an ASCII text *)

Lemma float_of_str_ascii (s : string) :
  float_of_str s = float_of_ascii (map transform_char (list_ascii_of_string s)).
Proof. reflexivity. Qed.

Lemma float_of_ascii_raises (a : list ascii) (e : exn) :
  float_of_ascii a = Raise e -> e = ValueError.
Proof.
  unfold float_of_ascii.
  destruct (drop_underscores _ _); [|congruence].
  destruct (strip_with _ _); [congruence|].
  destruct (parse_float _); congruence.
Qed.

Lemma float_of_ascii_shape (a : list ascii) (f : float) :
  float_of_ascii a = Return f ->
  token_starts Py_ISSPACE false a = 1%nat
  /\ forallb (fun c => Py_ISSPACE c || literal_char c) a = true.
Proof.
  unfold float_of_ascii.
  destruct (drop_underscores zero a) as [t|] eqn:Hd; [|discriminate].
  destruct (strip_with_split Py_ISSPACE t) as (l & r & E & Fl & Fr).
  destruct (strip_with Py_ISSPACE t) as [|c body] eqn:Hb; [discriminate|].
  destruct (parse_float (c :: body)) as [g|] eqn:Hp; [|discriminate].
  intros _. apply parse_float_chars in Hp.
  assert (Hsolid : forallb (fun c => negb (Py_ISSPACE c)) (c :: body) = true).
  { rewrite forallb_forall in Hp |- *. intros y Hy.
    now rewrite (float_char_not_blank y (Hp y Hy)). }
  split.
  - rewrite (drop_underscores_tokens zero false _ t Hd) by discriminate.
    rewrite E, token_starts_blank_prefix, token_starts_blank_suffix by assumption.
    now apply token_starts_one.
  - apply (drop_underscores_chars zero _ t Hd).
    rewrite E, !forallb_app, !andb_true_iff. repeat split.
    + rewrite forallb_forall in Fl |- *. intros y Hy. now rewrite (Fl y Hy).
    + rewrite forallb_forall in Hp |- *. intros y Hy.
      now rewrite (Hp y Hy), orb_true_r.
    + rewrite forallb_forall in Fr |- *. intros y Hy. now rewrite (Fr y Hy).
Qed.

Lemma not_ascii_float_raises (a : list ascii) :
  (forall f, float_of_ascii a <> Return f) -> float_of_ascii a = Raise ValueError.
Proof.
  intros H. destruct (float_of_ascii a) as [f|e] eqn:E.
  - now elim (H f).
  - now rewrite (float_of_ascii_raises _ _ E).
Qed.

Lemma float_of_ascii_foreign (a : list ascii) (c : ascii) :
  In c a -> Py_ISSPACE c || literal_char c = false ->
  float_of_ascii a = Raise ValueError.
Proof.
  intros Hin Hc. apply not_ascii_float_raises. intros f Hf.
  destruct (float_of_ascii_shape a f Hf) as [_ F].
  rewrite forallb_forall in F. rewrite (F c Hin) in Hc. discriminate.
Qed.

(** *** From code points to ASCII *)

Lemma ascii_blank_agree (a : ascii) :
  Py_ISSPACE a || literal_char a = true -> Py_ISSPACE a = Py_UNICODE_ISSPACE a.
Proof. by_ascii a. Qed.

Lemma unicode_space_not_blank (a : ascii) :
  Py_UNICODE_ISSPACE a = false -> Py_ISSPACE a = false.
Proof. by_ascii a. Qed.

Lemma unicode_space_high (a : ascii) :
  (code a <? 128)%N = false ->
  Py_UNICODE_ISSPACE a = ((code a =? 133) || (code a =? 160))%N.
Proof. by_ascii a. Qed.

Lemma decimal_char_digit (d : decimal) :
  is_digit (ascii_of_N (48 + decimal_value d)) = true.
Proof. destruct d; reflexivity. Qed.

Section UnicodeFacts.

Variable unicode_isspace : N -> bool.
Variable unicode_todecimal : N -> option decimal.

Local Abbreviation isspace := (ustr_isspace unicode_isspace).
Local Abbreviation transform := (transform_cp unicode_isspace unicode_todecimal).
Local Abbreviation ufloat := (float_of_ustr unicode_isspace unicode_todecimal).
Local Abbreviation ustrip := (ustr_strip unicode_isspace).
Local Abbreviation uextract :=
  (extract_relevance_score_ustr unicode_isspace unicode_todecimal).

Lemma transform_cp_cases (c : N) :
  transform c = ascii_of_N c /\ (c < 127)%N /\ isspace c = Py_UNICODE_ISSPACE (ascii_of_N c)
  \/ transform c = " "%char /\ isspace c = true
  \/ is_digit (transform c) = true /\ isspace c = false
  \/ transform c = "?"%char /\ isspace c = false.
Proof.
  unfold transform_cp, ustr_isspace, ustr_todecimal.
  destruct (c <? 127)%N eqn:E1.
  - apply N.ltb_lt in E1. left. repeat split; trivial.
    assert (E2 : (c <? 128)%N = true) by (apply N.ltb_lt; lia). now rewrite E2.
  - apply N.ltb_ge in E1. destruct (c <? 128)%N eqn:E2.
    + apply N.ltb_lt in E2. assert (c = 127%N) by lia. subst c.
      right. right. right. now split.
    + destruct (unicode_isspace c); [right; left; now split|].
      destruct (unicode_todecimal c) as [d|].
      * right. right. left. split; [apply decimal_char_digit | reflexivity].
      * right. right. right. now split.
Qed.

Lemma transform_cp_blank (c : N) :
  Py_ISSPACE (transform c) || literal_char (transform c) = true ->
  Py_ISSPACE (transform c) = isspace c.
Proof.
  destruct (transform_cp_cases c) as [(-> & _ & ->)|[(-> & ->)|[(H & ->)|(-> & ->)]]].
  - apply ascii_blank_agree.
  - reflexivity.
  - intros _. now apply digit_not_blank.
  - discriminate.
Qed.

Lemma transform_cp_not_space (c : N) :
  isspace c = false -> Py_ISSPACE (transform c) = false.
Proof.
  destruct (transform_cp_cases c) as [(-> & _ & ->)|[(-> & ->)|[(H & _)|(-> & _)]]].
  - apply unicode_space_not_blank.
  - discriminate.
  - intros _. now apply digit_not_blank.
  - reflexivity.
Qed.

Lemma transform_loop_map (s : ustr) :
  transform_loop unicode_isspace unicode_todecimal s = map transform s
  \/ (In "?"%char (transform_loop unicode_isspace unicode_todecimal s)
      /\ In "?"%char (map transform s)).
Proof.
  induction s as [|c s IH]; [now left|].
  cbn [transform_loop map]. unfold transform_cp at 1 3.
  destruct (c <? 127)%N.
  - destruct IH as [->|[H1 H2]]; [now left|]. right. split; now right.
  - destruct (ustr_isspace unicode_isspace c).
    + destruct IH as [->|[H1 H2]]; [now left|]. right. split; now right.
    + destruct (ustr_todecimal unicode_todecimal c).
      * destruct IH as [->|[H1 H2]]; [now left|]. right. split; now right.
      * right. split; now left.
Qed.

Lemma transform_ascii_map (s : ustr) :
  forallb (fun c => (c <? 128)%N) s = true ->
  map ascii_of_N s = map transform s
  \/ (In (ascii_of_N 127) (map ascii_of_N s) /\ In "?"%char (map transform s)).
Proof.
  induction s as [|c s IH]; [now left|]. cbn [forallb map].
  intros H. apply andb_true_iff in H. destruct H as [Hc Hs].
  specialize (IH Hs). unfold transform_cp at 1 3, ustr_isspace, ustr_todecimal.
  rewrite Hc. destruct (c <? 127)%N eqn:E.
  - destruct IH as [->|[H1 H2]]; [now left|]. right. split; now right.
  - apply N.ltb_ge in E. apply N.ltb_lt in Hc. assert (c = 127%N) by lia. subst c.
    right. split; now left.
Qed.

Lemma float_of_ustr_map (s : ustr) :
  ufloat s = float_of_ascii (map transform s).
Proof.
  unfold float_of_ustr, TransformDecimalAndSpaceToASCII.
  destruct (forallb (fun c => (c <? 128)%N) s) eqn:E.
  - destruct (transform_ascii_map s E) as [->|[H1 H2]]; [reflexivity|].
    rewrite (float_of_ascii_foreign _ _ H1 eq_refl).
    now rewrite (float_of_ascii_foreign _ _ H2 eq_refl).
  - destruct (transform_loop_map s) as [->|[H1 H2]]; [reflexivity|].
    rewrite (float_of_ascii_foreign _ _ H1 eq_refl).
    now rewrite (float_of_ascii_foreign _ _ H2 eq_refl).
Qed.

(** *** The extractor *)

Lemma extract_relevance_score_ustr_value (s : ustr) :
  uextract s
  = Return (match ufloat (ustrip s) with
            | Return f => f
            | Raise _ => S754_zero false
            end).
Proof.
  unfold extract_relevance_score_ustr.
  destruct (ufloat (ustrip s)) as [f|e] eqn:E; cbn; [reflexivity|].
  unfold float_of_ustr in E. now rewrite (float_of_ascii_raises _ _ E).
Qed.

Lemma not_ustr_float_raises (s : ustr) :
  (forall f, ufloat s <> Return f) -> ufloat s = Raise ValueError.
Proof. apply not_ascii_float_raises. Qed.

Lemma float_of_ustr_blank (s : ustr) :
  forallb isspace s = true -> ufloat (ustrip s) = Raise ValueError.
Proof.
  intros H. unfold ustr_strip. now rewrite (ustrip_with_all _ s H).
Qed.

Lemma float_of_ustr_foreign (s : ustr) (c : N) :
  In c s -> isspace c = false -> literal_char (transform c) = false ->
  ufloat (ustrip s) = Raise ValueError.
Proof.
  intros Hin Hs Hl. rewrite float_of_ustr_map.
  apply (float_of_ascii_foreign _ (transform c)).
  - apply in_map. unfold ustr_strip. now apply in_ustrip_with.
  - now rewrite (transform_cp_not_space c Hs), Hl.
Qed.

Lemma float_of_ustr_multi_token (s : ustr) :
  (2 <= ustr_token_count unicode_isspace s)%nat ->
  ufloat (ustrip s) = Raise ValueError.
Proof.
  intros Ht. apply not_ustr_float_raises. intros f Hf.
  rewrite float_of_ustr_map in Hf.
  destruct (float_of_ascii_shape _ f Hf) as [T F].
  rewrite utoken_starts_ascii in T.
  rewrite (utoken_starts_map isspace) in T.
  - unfold ustr_strip in T. rewrite utoken_starts_strip in T.
    unfold ustr_token_count in Ht. lia.
  - intros c Hc. apply transform_cp_blank.
    rewrite forallb_forall in F. apply F. now apply in_map.
Qed.

Lemma ustr_strip_pad (l s r : ustr) :
  forallb isspace l = true -> forallb isspace r = true ->
  ustrip (l ++ s ++ r) = ustrip s.
Proof. apply ustrip_with_pad. Qed.

(** *** Texts below U+0100 *)

Hypothesis tables : latin1_tables unicode_isspace unicode_todecimal.

Lemma isspace_code (c : ascii) : isspace (code c) = Py_UNICODE_ISSPACE c.
Proof.
  unfold ustr_isspace, code. destruct (N_of_ascii c <? 128)%N eqn:E.
  - now rewrite ascii_N_embedding.
  - apply N.ltb_ge in E. pose proof (N_ascii_bounded c) as Hb.
    destruct (tables (N_of_ascii c)) as [-> _]; [lia|].
    symmetry. apply unicode_space_high. now apply N.ltb_ge.
Qed.

Lemma transform_code (c : ascii) : transform (code c) = transform_char c.
Proof.
  unfold transform_cp, transform_char. rewrite isspace_code.
  destruct (code c <? 127)%N eqn:E; [apply ascii_N_embedding|].
  destruct (Py_UNICODE_ISSPACE c); [reflexivity|].
  unfold ustr_todecimal. destruct (code c <? 128)%N eqn:E2; [reflexivity|].
  apply N.ltb_ge in E2. pose proof (N_ascii_bounded c) as Hb.
  destruct (tables (code c)) as [_ ->]; [unfold code in *; lia | reflexivity].
Qed.

Lemma extract_relevance_score_latin1 (s : string) :
  extract_relevance_score (VStr s) = uextract (ustr_of_string s).
Proof.
  rewrite extract_relevance_score_str, extract_relevance_score_ustr_value.
  assert (E : ufloat (ustrip (ustr_of_string s)) = float_of_str (strip s)).
  { rewrite float_of_ustr_map, float_of_str_ascii, strip_chars.
    unfold ustr_strip, ustr_of_string.
    rewrite (ustrip_with_map Py_UNICODE_ISSPACE isspace code)
      by (intros; apply isspace_code).
    rewrite <- strip_with_ascii, map_map.
    f_equal. apply map_ext. intros c. apply transform_code. }
  now rewrite E.
Qed.

End UnicodeFacts.

(** *** Literals, as written *)

Ltac digit_cases d H :=
  apply N.ltb_lt in H;
  assert (d = 0 \/ d = 1 \/ d = 2 \/ d = 3 \/ d = 4 \/ d = 5 \/ d = 6 \/ d = 7
          \/ d = 8 \/ d = 9)%N as Hcases by lia;
  clear H;
  destruct Hcases as [->|[->|[->|[->|[->|[->|[->|[->|[->| ->]]]]]]]]].

Lemma digit_char_digit (d : N) : (d <? 10)%N = true -> is_digit (digit_char d) = true.
Proof. intros H. digit_cases d H; reflexivity. Qed.

Lemma digit_char_value (d : N) : (d <? 10)%N = true -> digit_val (digit_char d) = d.
Proof. intros H. digit_cases d H; reflexivity. Qed.

Lemma digit_unsigned (c : ascii) (r : list ascii) :
  is_digit c = true -> starts_unsigned (c :: r) = true.
Proof. by_ascii c. Qed.

Lemma parse_sign_unsigned (s : list ascii) :
  starts_unsigned s = true -> parse_sign s = (false, s).
Proof.
  destruct s as [|c s]; [reflexivity|]. cbn [starts_unsigned].
  rewrite andb_true_iff, !negb_true_iff. intros [H1 H2].
  apply Ascii.eqb_neq in H1, H2.
  destruct c as [[] [] [] [] [] [] [] []]; try reflexivity; congruence.
Qed.

Lemma parse_sign_text (sg : option bool) (rest : list ascii) :
  starts_unsigned rest = true ->
  parse_sign (sign_text sg ++ rest)
  = (match sg with Some true => true | _ => false end, rest).
Proof.
  intros H. destruct sg as [[]|]; [reflexivity | reflexivity |].
  now apply parse_sign_unsigned.
Qed.

Lemma span_digits_text (ds : list N) (rest : list ascii) :
  all_digits ds = true -> starts_without_digit rest = true ->
  span_digits (map digit_char ds ++ rest) = (map digit_char ds, rest).
Proof.
  intros Hd Hr. induction ds as [|d ds IH].
  - destruct rest as [|c rest]; [reflexivity|]. cbn in Hr |- *.
    apply negb_true_iff in Hr. now rewrite Hr.
  - cbn in Hd. apply andb_true_iff in Hd. destruct Hd as [H1 H2].
    cbn [map app span_digits]. rewrite (digit_char_digit d H1), (IH H2). reflexivity.
Qed.

Lemma digits_value_number (ds : list N) :
  all_digits ds = true -> digits_value (map digit_char ds) = number ds.
Proof.
  unfold digits_value, number. generalize 0%N as acc.
  induction ds as [|d ds IH]; intros acc Hd; [reflexivity|].
  cbn in Hd. apply andb_true_iff in Hd. destruct Hd as [H1 H2].
  cbn [map fold_left]. rewrite (digit_char_value d H1). now apply IH.
Qed.

Lemma digits_text_unsigned (ds : list N) (rest : list ascii) :
  all_digits ds = true -> ds <> [] -> starts_unsigned (map digit_char ds ++ rest) = true.
Proof.
  destruct ds as [|d ds]; [congruence|]. intros Hd _.
  cbn in Hd. apply andb_true_iff in Hd. destruct Hd as [H1 _].
  apply digit_unsigned. now apply digit_char_digit.
Qed.

Lemma parse_exponent_text (e : option (bool * option bool * list N)) :
  match e with
  | None => true
  | Some (_, _, ds) => all_digits ds && negb (Nat.eqb (List.length ds) 0)
  end = true ->
  parse_exponent (exponent_text e) = Some (exponent_value e).
Proof.
  destruct e as [[[upper sg] ds]|]; [|reflexivity].
  rewrite andb_true_iff. intros [Hd Hn].
  assert (Hne : ds <> []) by (destruct ds; [discriminate | congruence]).
  cbn [exponent_text parse_exponent].
  assert (Hmark : Ascii.eqb (to_lower (if upper then "E"%char else "e"%char)) "e" = true)
    by (destruct upper; reflexivity).
  rewrite Hmark, <- (app_nil_r (map digit_char ds)).
  rewrite (parse_sign_text sg _ (digits_text_unsigned ds [] Hd Hne)).
  rewrite (span_digits_text ds [] Hd eq_refl).
  rewrite (digits_value_number ds Hd).
  destruct ds as [|d ds]; [congruence|]. cbn [map].
  destruct sg as [[]|]; reflexivity.
Qed.

Lemma exponent_text_no_digit (e : option (bool * option bool * list N)) :
  starts_without_digit (exponent_text e) = true.
Proof. destruct e as [[[[] sg] ds]|]; reflexivity. Qed.

Lemma parse_decimal_text (l : float_literal) :
  literal_ok l = true ->
  parse_decimal (map digit_char (lit_int l)
                 ++ match lit_frac l with
                    | None => []
                    | Some fp => "."%char :: map digit_char fp
                    end
                 ++ exponent_text (lit_exp l))
  = Some (number (lit_int l ++ frac_digits l),
          exponent_value (lit_exp l) - Z.of_nat (List.length (frac_digits l))).
Proof.
  unfold literal_ok. rewrite !andb_true_iff, negb_true_iff, Nat.eqb_neq.
  intros [[[Hi Hf] Hn] He].
  pose proof (parse_exponent_text (lit_exp l) He) as Hexp.
  unfold parse_decimal, frac_digits in *.
  destruct (lit_frac l) as [fp|].
  - cbn [app].
    rewrite (span_digits_text (lit_int l)
               ("."%char :: map digit_char fp ++ exponent_text (lit_exp l)) Hi eq_refl).
    rewrite (span_digits_text fp _ Hf (exponent_text_no_digit _)).
    rewrite Hexp, <- map_app, length_map.
    assert (Hv : digits_value (map digit_char (lit_int l ++ fp))
                 = number (lit_int l ++ fp)).
    { apply digits_value_number. unfold all_digits in *.
      now rewrite forallb_app, Hi, Hf. }
    destruct (lit_int l ++ fp) as [|d ds] eqn:E; [now elim Hn|].
    cbn [map] in Hv |- *. now rewrite Hv.
  - cbn [app]. rewrite app_nil_r in Hn.
    rewrite (span_digits_text (lit_int l) _ Hi (exponent_text_no_digit _)).
    assert (Hdot : match exponent_text (lit_exp l) with
                   | "."%char :: r => span_digits r
                   | _ => ([], exponent_text (lit_exp l))
                   end = ([], exponent_text (lit_exp l))).
    { destruct (lit_exp l) as [[[[] sg] ds]|]; reflexivity. }
    rewrite Hdot, Hexp, !app_nil_r.
    pose proof (digits_value_number _ Hi) as Hv.
    destruct (lit_int l) as [|d ds] eqn:E; [now elim Hn|].
    cbn [map] in Hv |- *. now rewrite Hv.
Qed.

Lemma literal_body_unsigned (l : float_literal) :
  literal_ok l = true ->
  starts_unsigned (map digit_char (lit_int l)
                   ++ match lit_frac l with
                      | None => []
                      | Some fp => "."%char :: map digit_char fp
                      end
                   ++ exponent_text (lit_exp l)) = true.
Proof.
  unfold literal_ok, frac_digits. rewrite !andb_true_iff, negb_true_iff, Nat.eqb_neq.
  intros [[[Hi Hf] Hn] He].
  destruct (lit_int l) as [|d ds] eqn:E.
  - destruct (lit_frac l); [reflexivity | now elim Hn].
  - apply (digits_text_unsigned (d :: ds)); [exact Hi | discriminate].
Qed.

Lemma parse_float_literal (l : float_literal) :
  literal_ok l = true -> parse_float (literal_text l) = Some (literal_value l).
Proof.
  intros H. unfold parse_float, literal_text, literal_value.
  rewrite (parse_sign_text _ _ (literal_body_unsigned l H)).
  now rewrite (parse_decimal_text l H).
Qed.

(** *** Texts made of literal characters only *)

Lemma float_char_plain (c : ascii) :
  float_char c = true ->
  is_underscore c = false /\ Py_UNICODE_ISSPACE c = false /\ (code c <? 127)%N = true.
Proof. by_ascii c; repeat split. Qed.

Lemma drop_underscores_none (prev : ascii) (a : list ascii) :
  forallb (fun c => negb (is_underscore c)) a = true ->
  is_underscore prev = false ->
  drop_underscores prev a = Some a.
Proof.
  revert prev. induction a as [|c a IH]; intros prev Ha Hp; cbn.
  - now rewrite Hp.
  - cbn in Ha. apply andb_true_iff in Ha. destruct Ha as [Hc Ha].
    apply negb_true_iff in Hc. rewrite Hc, Hp. cbn. now rewrite (IH c Ha Hc).
Qed.

Lemma float_of_ascii_plain (a : list ascii) (f : float) :
  parse_float a = Some f -> float_of_ascii a = Return f.
Proof.
  intros Hp. pose proof (parse_float_chars a f Hp) as Hc.
  unfold float_of_ascii. rewrite drop_underscores_none; [| |reflexivity].
  - rewrite strip_with_ascii, ustrip_with_solid.
    + destruct a; [discriminate|]. now rewrite Hp.
    + rewrite forallb_forall in Hc |- *. intros c Hin.
      now rewrite (float_char_not_blank c (Hc c Hin)).
  - rewrite forallb_forall in Hc |- *. intros c Hin.
    destruct (float_char_plain c (Hc c Hin)) as [-> _]. reflexivity.
Qed.

Section PlainTexts.

Variable unicode_isspace : N -> bool.
Variable unicode_todecimal : N -> option decimal.

Lemma extract_relevance_score_ustr_plain (a : list ascii) (f : float) :
  parse_float a = Some f ->
  extract_relevance_score_ustr unicode_isspace unicode_todecimal (map code a)
  = Return f.
Proof.
  intros Hp. pose proof (parse_float_chars a f Hp) as Hc.
  rewrite extract_relevance_score_ustr_value.
  assert (Hs : ustr_strip unicode_isspace (map code a) = map code a).
  { apply ustrip_with_solid. rewrite forallb_forall in Hc |- *.
    intros c Hin. apply in_map_iff in Hin. destruct Hin as (y & <- & Hy).
    destruct (float_char_plain y (Hc y Hy)) as (_ & Hsp & Hlt).
    unfold ustr_isspace.
    assert (E : (code y <? 128)%N = true)
      by (apply N.ltb_lt; apply N.ltb_lt in Hlt; lia).
    rewrite E. unfold code. now rewrite ascii_N_embedding, Hsp. }
  rewrite Hs, float_of_ustr_map, map_map.
  assert (Hm : map (fun c => transform_cp unicode_isspace unicode_todecimal (code c)) a = a).
  { rewrite <- (map_id a) at 2. apply map_ext_in. intros c Hin.
    rewrite forallb_forall in Hc.
    destruct (float_char_plain c (Hc c Hin)) as (_ & _ & Hlt).
    unfold transform_cp. rewrite Hlt. apply ascii_N_embedding. }
  now rewrite Hm, (float_of_ascii_plain a f Hp).
Qed.

End PlainTexts.

(** *** The spellings of infinities and NaN *)

Lemma letter_head (c : ascii) (r : list ascii) :
  existsb (Ascii.eqb (to_lower c)) (list_ascii_of_string "in") = true ->
  starts_unsigned (c :: r) = true /\ parse_decimal (c :: r) = None.
Proof.
  destruct c as [[] [] [] [] [] [] [] []]; vm_compute; try discriminate;
    intros _; split; reflexivity.
Qed.

Lemma parse_float_spelling (sg : option bool) (a : list ascii) (w : string) :
  map to_lower a = list_ascii_of_string w ->
  existsb (String.eqb w) ["inf"; "infinity"; "nan"] = true ->
  parse_float (sign_text sg ++ a)
  = Some (if String.eqb w "nan" then S754_nan
          else S754_infinity (match sg with Some true => true | _ => false end)).
Proof.
  intros Hw Hin.
  assert (Hhead : exists c r, a = c :: r
            /\ existsb (Ascii.eqb (to_lower c)) (list_ascii_of_string "in") = true).
  { cbn in Hin. rewrite !orb_true_iff in Hin.
    destruct Hin as [H|[H|[H|H]]]; [| | |discriminate];
      apply String.eqb_eq in H; subst w;
      (destruct a as [|c r]; [discriminate|]); injection Hw as Hc _;
      exists c, r; (split; [reflexivity|]); cbn; rewrite Hc; reflexivity. }
  destruct Hhead as (c & r & -> & Hc).
  destruct (letter_head c r Hc) as [Hu Hd].
  unfold parse_float. rewrite (parse_sign_text sg _ Hu), Hd.
  unfold parse_inf_or_nan. rewrite Hw, string_of_list_ascii_of_string.
  cbn in Hin. rewrite !orb_true_iff in Hin.
  destruct Hin as [H|[H|[H|H]]]; [| | |discriminate];
    apply String.eqb_eq in H; subst w; reflexivity.
Qed.

(** *** Totality and values *)

Section EveryText.

Variable unicode_isspace : N -> bool.
Variable unicode_todecimal : N -> option decimal.

Local Abbreviation isspace := (ustr_isspace unicode_isspace).
Local Abbreviation ufloat := (float_of_ustr unicode_isspace unicode_todecimal).
Local Abbreviation ustrip := (ustr_strip unicode_isspace).
Local Abbreviation uextract :=
  (extract_relevance_score_ustr unicode_isspace unicode_todecimal).

Lemma extract_relevance_score_ustr_digit (c : N) (d : decimal) :
  (128 <= c)%N -> unicode_isspace c = false -> unicode_todecimal c = Some d ->
  uextract [c] = Return (float_of_Z (Z.of_N (decimal_value d))).
Proof.
  intros Hc Hs Hd. rewrite extract_relevance_score_ustr_value.
  assert (E : (c <? 128)%N = false) by (apply N.ltb_ge; lia).
  assert (Hsp : isspace c = false) by (unfold ustr_isspace; now rewrite E).
  assert (Hst : ustrip [c] = [c])
    by (apply ustrip_with_solid; cbn; now rewrite Hsp).
  rewrite Hst, float_of_ustr_map. cbn [map]. unfold transform_cp.
  assert (E' : (c <? 127)%N = false) by (apply N.ltb_ge; lia).
  rewrite E', Hsp. unfold ustr_todecimal. rewrite E, Hd.
  destruct d; vm_compute; reflexivity.
Qed.

(** C3. On every text, of any code points and for any tables of the
    Unicode database, [extract_relevance_score] returns and never raises:
    the float that [float] reads from the stripped text, or the sentinel
    0.0 when [float] rejects it. Whitespace around the text does not
    matter. A decimal literal gives the correctly rounded number it
    writes, with its sign and exponent; the spellings of infinity and NaN
    are read as such; a decimal digit beyond ASCII reads as its value.
    Blank texts, texts of several tokens and texts with a character that
    is neither whitespace nor part of a literal give 0.0. On texts below
    U+0100 this is the [extract_relevance_score] of the pipeline. ["4"],
    ["  3.5 \n"] and ["five"] give 4.0, 3.5 and 0.0. *)
Theorem extract_relevance_score_every_text :
  (forall s, exists f, uextract s = Return f)
  /\ (forall s f, ufloat (ustrip s) = Return f -> uextract s = Return f)
  /\ (forall s e, ufloat (ustrip s) = Raise e -> uextract s = Return (S754_zero false))
  /\ (forall l s r, forallb isspace l = true -> forallb isspace r = true ->
        uextract (l ++ s ++ r) = uextract s)
  /\ (forall l, literal_ok l = true ->
        uextract (map code (literal_text l)) = Return (literal_value l))
  /\ (forall sg a w, map to_lower a = list_ascii_of_string w ->
        existsb (String.eqb w) ["inf"; "infinity"; "nan"] = true ->
        uextract (map code (sign_text sg ++ a))
        = Return (if String.eqb w "nan" then S754_nan
                  else S754_infinity (match sg with Some true => true | _ => false end)))
  /\ (forall c d, (128 <= c)%N -> unicode_isspace c = false ->
        unicode_todecimal c = Some d ->
        uextract [c] = Return (float_of_Z (Z.of_N (decimal_value d))))
  /\ (forall s, forallb isspace s = true -> uextract s = Return (S754_zero false))
  /\ (forall s, (2 <= ustr_token_count unicode_isspace s)%nat ->
        uextract s = Return (S754_zero false))
  /\ (forall s c, In c s -> isspace c = false ->
        literal_char (transform_cp unicode_isspace unicode_todecimal c) = false ->
        uextract s = Return (S754_zero false))
  /\ (latin1_tables unicode_isspace unicode_todecimal ->
      forall s : string, extract_relevance_score (VStr s) = uextract (ustr_of_string s))
  /\ uextract (ustr_of_string "4") = Return (S754_finite false 4503599627370496 (-50))
  /\ uextract (ustr_of_string ("  3.5 " +:+ nl))
     = Return (S754_finite false 7881299347898368 (-51))
  /\ uextract (ustr_of_string "five") = Return (S754_zero false)
  /\ uextract (ustr_of_string (String "028" "4"))
     = Return (S754_finite false 4503599627370496 (-50))
  /\ uextract (ustr_of_string "-5") = Return (S754_finite true 5629499534213120 (-50))
  /\ extract_relevance_score (VStr "4") = Return (S754_finite false 4503599627370496 (-50))
  /\ extract_relevance_score (VStr ("  3.5 " +:+ nl))
     = Return (S754_finite false 7881299347898368 (-51))
  /\ extract_relevance_score (VStr "five") = Return (S754_zero false)
  /\ extract_relevance_score (VStr (String "028" "4"))
     = Return (S754_finite false 4503599627370496 (-50))
  /\ extract_relevance_score (VStr "-5")
     = Return (S754_finite true 5629499534213120 (-50)).
Proof.
  split; [intros s; rewrite extract_relevance_score_ustr_value; eauto|].
  split; [intros s f H; now rewrite extract_relevance_score_ustr_value, H|].
  split; [intros s e H; now rewrite extract_relevance_score_ustr_value, H|].
  split.
  { intros l s r Hl Hr. rewrite !extract_relevance_score_ustr_value.
    now rewrite (ustr_strip_pad unicode_isspace l s r Hl Hr). }
  split.
  { intros l Hl. apply extract_relevance_score_ustr_plain.
    now apply parse_float_literal. }
  split.
  { intros sg a w Hw Hin. apply extract_relevance_score_ustr_plain.
    now apply parse_float_spelling. }
  split; [exact extract_relevance_score_ustr_digit|].
  split.
  { intros s H. rewrite extract_relevance_score_ustr_value.
    now rewrite (float_of_ustr_blank unicode_isspace unicode_todecimal s H). }
  split.
  { intros s H. rewrite extract_relevance_score_ustr_value.
    now rewrite (float_of_ustr_multi_token unicode_isspace unicode_todecimal s H). }
  split.
  { intros s c H1 H2 H3. rewrite extract_relevance_score_ustr_value.
    now rewrite (float_of_ustr_foreign unicode_isspace unicode_todecimal s c H1 H2 H3). }
  split.
  { intros Ht s. now apply extract_relevance_score_latin1. }
  repeat split; vm_compute; reflexivity.
Qed.

End EveryText.


(** ** The gate and the validation step *)

Lemma conditional_answer_str (x : dict) (raw : string) (s : float) :
  x !! "relevance_score" = Some (VStr raw) ->
  extract_relevance_score (VStr raw) = Return s ->
  conditional_answer x
  = if decide s (float_of_Z 4)
    then m <- format_json_output x ;; Return (VModel m)
    else Return (VStr decline_message).
Proof.
  intros Hx Hs. unfold conditional_answer, getitem, decide. rewrite Hx. cbn [py_bind].
  rewrite Hs. cbn [py_bind]. now destruct (py_lt s (float_of_Z 4)).
Qed.

Lemma format_json_output_str (x : dict) (raw a : string) (s : float) :
  x !! "relevance_score" = Some (VStr raw) ->
  x !! "answer" = Some (VStr a) ->
  extract_relevance_score (VStr raw) = Return s ->
  format_json_output x = Return {| relevance_score := s; answer := a |}.
Proof.
  intros Hr Ha Hs. unfold format_json_output, getitem. rewrite Hr. cbn [py_bind].
  rewrite Hs. cbn [py_bind]. rewrite Ha. reflexivity.
Qed.

(** What does hold of every answered result: its score is the extracted
    one and is not below 4 (a NaN is not). *)
Lemma conditional_answer_model (x : dict) (m : FinalOutputModel) :
  conditional_answer x = Return (VModel m) ->
  exists r, x !! "relevance_score" = Some r
    /\ extract_relevance_score r = Return (relevance_score m)
    /\ py_lt (relevance_score m) (float_of_Z 4) = false.
Proof.
  unfold conditional_answer, getitem.
  destruct (x !! "relevance_score") as [r|] eqn:Hr; [|discriminate]. cbn [py_bind].
  destruct (extract_relevance_score r) as [s|e] eqn:Hs; [|discriminate]. cbn [py_bind].
  destruct (py_lt s (float_of_Z 4)) eqn:Hlt; [discriminate|].
  unfold format_json_output, getitem. rewrite Hr. cbn [py_bind]. rewrite Hs. cbn [py_bind].
  destruct (x !! "answer") as [a|]; [|discriminate]. cbn [py_bind].
  destruct a as [a|a]; [|discriminate]. cbn [py_bind].
  intros [= <-]. exists r. cbn. now repeat split.
Qed.

(** A declined result does not depend on anything but the judgment entry:
    the draft is never read. *)
Lemma conditional_answer_ignores_draft (x1 x2 : dict) (r : value) (s : float) :
  x1 !! "relevance_score" = Some r ->
  x2 !! "relevance_score" = Some r ->
  extract_relevance_score r = Return s ->
  py_lt s (float_of_Z 4) = true ->
  conditional_answer x1 = Return (VStr decline_message)
  /\ conditional_answer x2 = Return (VStr decline_message).
Proof.
  intros H1 H2 Hs Hlt. unfold conditional_answer, getitem.
  rewrite H1, H2. cbn [py_bind]. rewrite Hs. cbn [py_bind]. now rewrite Hlt.
Qed.

Section ChainFacts.

Variable ensemble_retriever : string -> list Document.
Variable prompt : string -> string -> string.

Lemma parallel_outputs_relevance (llm : string -> string) (question : string) :
  parallel_outputs ensemble_retriever prompt llm question !! "relevance_score"
  = Some (VStr (llm (relevance_prompt_template question
                       (format_docs (ensemble_retriever question))))).
Proof. unfold parallel_outputs. now rewrite lookup_insert_eq. Qed.

Lemma parallel_outputs_answer (llm : string -> string) (question : string) :
  parallel_outputs ensemble_retriever prompt llm question !! "answer"
  = Some (VStr (llm (prompt (format_docs (ensemble_retriever question)) question))).
Proof.
  unfold parallel_outputs.
  rewrite lookup_insert_ne by discriminate. now rewrite lookup_insert_eq.
Qed.

Lemma assign_answer (llm1 llm2 : string -> string) (question : string) (a : value) :
  llm1 (relevance_prompt_template question (format_docs (ensemble_retriever question)))
  = llm2 (relevance_prompt_template question (format_docs (ensemble_retriever question))) ->
  <["answer" := a]> (parallel_outputs ensemble_retriever prompt llm1 question)
  = <["answer" := a]> (parallel_outputs ensemble_retriever prompt llm2 question).
Proof.
  intros H. unfold parallel_outputs. rewrite H.
  rewrite !(insert_insert_ne _ "answer" "relevance_score") by discriminate.
  now rewrite !insert_insert_eq.
Qed.

End ChainFacts.

Section Runs.

Variable ensemble_retriever : string -> list Document.
Variable prompt : string -> string -> string.
Variable llm : string -> string.
Variable question : string.

Local Abbreviation context := (format_docs (ensemble_retriever question)).
Local Abbreviation raw := (llm (relevance_prompt_template question context)).
Local Abbreviation draft := (llm (prompt context question)).
Local Abbreviation x := (parallel_outputs ensemble_retriever prompt llm question).

Lemma rag_chain_decline_branch (s : float) :
  extract_relevance_score (VStr raw) = Return s ->
  py_lt s (float_of_Z 4) = true ->
  rag_chain ensemble_retriever prompt llm question
  = Return (<["answer" := VStr decline_message]> x).
Proof.
  intros Hs Hlt. unfold rag_chain.
  rewrite (conditional_answer_str _ raw s
             (parallel_outputs_relevance _ _ _ _) Hs).
  unfold decide. rewrite Hlt. reflexivity.
Qed.

Lemma rag_chain_answer_branch (s : float) :
  extract_relevance_score (VStr raw) = Return s ->
  py_lt s (float_of_Z 4) = false ->
  rag_chain ensemble_retriever prompt llm question
  = Return (<["answer" := VModel {| relevance_score := s; answer := draft |}]> x).
Proof.
  intros Hs Hlt. unfold rag_chain.
  rewrite (conditional_answer_str _ raw s
             (parallel_outputs_relevance _ _ _ _) Hs).
  unfold decide. rewrite Hlt. cbn [negb].
  rewrite (format_json_output_str _ raw draft s
             (parallel_outputs_relevance _ _ _ _)
             (parallel_outputs_answer _ _ _ _) Hs).
  reflexivity.
Qed.

(** A result of the chain whose answer is a plain string is the decline
    message, and the extracted score was below 4. *)
Lemma rag_chain_str_answer (result : dict) (a : string) :
  rag_chain ensemble_retriever prompt llm question = Return result ->
  result !! "answer" = Some (VStr a) ->
  a = decline_message
  /\ result !! "relevance_score" = Some (VStr raw)
  /\ exists s, extract_relevance_score (VStr raw) = Return s
               /\ py_lt s (float_of_Z 4) = true.
Proof.
  pose proof (extract_relevance_score_str raw) as Hs.
  set (s := match float_of_str (strip raw) with
            | Return f => f
            | Raise _ => S754_zero false
            end) in Hs.
  destruct (py_lt s (float_of_Z 4)) eqn:Hlt.
  - rewrite (rag_chain_decline_branch s Hs Hlt). intros [= <-].
    rewrite lookup_insert_eq. intros [= <-].
    split; [reflexivity|]. split.
    + rewrite lookup_insert_ne by discriminate.
      apply parallel_outputs_relevance.
    + exists s. now split.
  - rewrite (rag_chain_answer_branch s Hs Hlt). intros [= <-].
    rewrite lookup_insert_eq. discriminate.
Qed.

End Runs.

(** ** The claims about the gate *)

(** C1 (amended). When the score extracted from the judgment text is
    below 4, the chain returns normally, and the answer entry of its
    result is the string "I don't know due to no relevant content
    found." *)
Theorem rag_chain_declines
    (ensemble_retriever : string -> list Document)
    (prompt : string -> string -> string) (llm : string -> string)
    (question : string) (s : float) :
  extract_relevance_score
    (VStr (llm (relevance_prompt_template question
                  (format_docs (ensemble_retriever question))))) = Return s ->
  py_lt s (float_of_Z 4) = true ->
  rag_chain ensemble_retriever prompt llm question
  = Return (<["answer" := VStr "I don't know due to no relevant content found."]>
              (parallel_outputs ensemble_retriever prompt llm question)).
Proof. apply rag_chain_decline_branch. Qed.

Lemma rag_chain_declines_witness :
  rag_chain sample_retriever sample_prompt (scripted_llm "1" "Gemini is trained on TPUs.")
    "How is Google developing its LLM?"
  = Return (<["answer" := VStr "I don't know due to no relevant content found."]>
              (parallel_outputs sample_retriever sample_prompt
                 (scripted_llm "1" "Gemini is trained on TPUs.")
                 "How is Google developing its LLM?")).
Proof.
  apply (rag_chain_declines sample_retriever sample_prompt
           (scripted_llm "1" "Gemini is trained on TPUs.")
           "How is Google developing its LLM?"
           (S754_finite false 4503599627370496 (-52)));
    vm_compute; reflexivity.
Defined.

(** C1, as stated, fails: the declined result is not the text "no
    relevant content found". *)
Lemma decline_text_differs :
  conditional_answer (sample_dict "1" "Gemini is trained on TPUs.")
  = Return (VStr "I don't know due to no relevant content found.")
  /\ conditional_answer (sample_dict "1" "Gemini is trained on TPUs.")
     <> Return (VStr "no relevant content found").
Proof. split; vm_compute; [reflexivity | discriminate]. Qed.

(** C2 (amended). Once the gate has passed, the validation step returns a
    [FinalOutputModel] for every answer text, the empty and the blank ones
    included: its score is the extracted one and its answer is the text
    unchanged. *)
Theorem format_json_output_any_answer (x : dict) (raw a : string) (s : float) :
  x !! "relevance_score" = Some (VStr raw) ->
  x !! "answer" = Some (VStr a) ->
  extract_relevance_score (VStr raw) = Return s ->
  py_lt s (float_of_Z 4) = false ->
  format_json_output x = Return {| relevance_score := s; answer := a |}
  /\ conditional_answer x = Return (VModel {| relevance_score := s; answer := a |}).
Proof.
  intros Hr Ha Hs Hlt.
  pose proof (format_json_output_str x raw a s Hr Ha Hs) as Hf.
  split; [exact Hf|].
  rewrite (conditional_answer_str x raw s Hr Hs). unfold decide.
  now rewrite Hlt, Hf.
Qed.

Lemma format_json_output_any_answer_witness :
  format_json_output (sample_dict "4.5" "   ")
  = Return {| relevance_score := S754_finite false 5066549580791808 (-50);
              answer := "   " |}
  /\ conditional_answer (sample_dict "4.5" "   ")
     = Return (VModel {| relevance_score := S754_finite false 5066549580791808 (-50);
                         answer := "   " |}).
Proof.
  apply (format_json_output_any_answer (sample_dict "4.5" "   ") "4.5" "   ");
    vm_compute; reflexivity.
Defined.

(** C2, as stated, fails: judgment "4" with an empty generation output
    is answered, with score 4.0 and the empty answer. *)
Lemma empty_answer_is_answered :
  conditional_answer (sample_dict "4" "")
  = Return (VModel {| relevance_score := S754_finite false 4503599627370496 (-50);
                      answer := "" |}).
Proof. vm_compute. reflexivity. Qed.

(** C4. When the judgment text gives a score at or above 4 and the
    generation output is not empty, the chain returns a result whose
    answer entry is a [FinalOutputModel] with the score extracted from the
    raw judgment text and the generation output unchanged; "5" gives
    5.0. *)
Theorem rag_chain_answers
    (ensemble_retriever : string -> list Document)
    (prompt : string -> string -> string) (llm : string -> string)
    (question : string) (s : float) :
  extract_relevance_score
    (VStr (llm (relevance_prompt_template question
                  (format_docs (ensemble_retriever question))))) = Return s ->
  py_ge s (float_of_Z 4) = true ->
  llm (prompt (format_docs (ensemble_retriever question)) question) <> "" ->
  rag_chain ensemble_retriever prompt llm question
  = Return (<["answer" :=
               VModel {| relevance_score := s;
                         answer := llm (prompt (format_docs (ensemble_retriever question))
                                          question) |}]>
              (parallel_outputs ensemble_retriever prompt llm question))
  /\ extract_relevance_score (VStr "5")
     = Return (S754_finite false 5629499534213120 (-50)).
Proof.
  intros Hs Hge _. split; [|vm_compute; reflexivity].
  apply rag_chain_answer_branch; [exact Hs | now apply py_ge_not_lt].
Qed.

Lemma rag_chain_answers_witness :
  rag_chain sample_retriever sample_prompt
    (scripted_llm "5" "Google runs on carbon-free energy.")
    "What are Google's environmental initiatives?"
  = Return (<["answer" :=
               VModel {| relevance_score := S754_finite false 5629499534213120 (-50);
                         answer := "Google runs on carbon-free energy." |}]>
              (parallel_outputs sample_retriever sample_prompt
                 (scripted_llm "5" "Google runs on carbon-free energy.")
                 "What are Google's environmental initiatives?"))
  /\ extract_relevance_score (VStr "5")
     = Return (S754_finite false 5629499534213120 (-50)).
Proof.
  apply (rag_chain_answers sample_retriever sample_prompt
           (scripted_llm "5" "Google runs on carbon-free energy.")
           "What are Google's environmental initiatives?"
           (S754_finite false 5629499534213120 (-50)));
    vm_compute; [reflexivity | reflexivity | discriminate].
Defined.

(** C5 (the code at the failing input). The judgment text "nan" is read
    as a NaN; NaN >= 4 is false, yet [relevance_score < 4] is false as
    well, so the gate proceeds and the draft is answered. On every other
    score the gate is the comparison [score >= 4]. *)
Theorem gate_proceeds_on_nan :
  extract_relevance_score (VStr "nan") = Return S754_nan
  /\ py_ge S754_nan (float_of_Z 4) = false
  /\ decide S754_nan (float_of_Z 4) = true
  /\ conditional_answer (sample_dict "nan" "Gemini is trained on TPUs.")
     = Return (VModel {| relevance_score := S754_nan;
                         answer := "Gemini is trained on TPUs." |})
  /\ (forall s, is_nan s = false ->
        decide s (float_of_Z 4) = py_ge s (float_of_Z 4)).
Proof.
  split; [vm_compute; reflexivity|].
  split; [reflexivity|].
  split; [reflexivity|].
  split; [vm_compute; reflexivity|].
  intros s Hs. now apply decide_ge.
Qed.

(** The boundary of the gate: 4.0 proceeds, 3.999 does not. *)
Lemma decide_boundary :
  decide (S754_finite false 4503599627370496 (-50)) (float_of_Z 4) = true
  /\ float_of_str "3.999" = Return (S754_finite false 9004947454927307 (-51))
  /\ decide (S754_finite false 9004947454927307 (-51)) (float_of_Z 4) = false.
Proof. repeat split; vm_compute; reflexivity. Qed.

(** C6. Two runs on the same question and retrieved context whose
    judgment texts agree and give a score below 4 return the same result,
    whatever the two models generate as the draft answer. *)
Theorem rag_chain_two_runs
    (ensemble_retriever : string -> list Document)
    (prompt : string -> string -> string) (llm1 llm2 : string -> string)
    (question : string) (s : float) :
  llm1 (relevance_prompt_template question (format_docs (ensemble_retriever question)))
  = llm2 (relevance_prompt_template question (format_docs (ensemble_retriever question))) ->
  extract_relevance_score
    (VStr (llm1 (relevance_prompt_template question
                   (format_docs (ensemble_retriever question))))) = Return s ->
  py_lt s (float_of_Z 4) = true ->
  rag_chain ensemble_retriever prompt llm1 question
  = rag_chain ensemble_retriever prompt llm2 question.
Proof.
  intros Heq Hs Hlt.
  rewrite (rag_chain_decline_branch ensemble_retriever prompt llm1 question s Hs Hlt).
  rewrite Heq in Hs.
  rewrite (rag_chain_decline_branch ensemble_retriever prompt llm2 question s Hs Hlt).
  f_equal. now apply assign_answer.
Qed.

Lemma rag_chain_two_runs_witness :
  rag_chain sample_retriever sample_prompt (scripted_llm "1" "Gemini is trained on TPUs.")
    "How is Google developing its LLM?"
  = rag_chain sample_retriever sample_prompt (scripted_llm "1" "")
      "How is Google developing its LLM?".
Proof.
  apply (rag_chain_two_runs sample_retriever sample_prompt
           (scripted_llm "1" "Gemini is trained on TPUs.") (scripted_llm "1" "")
           "How is Google developing its LLM?"
           (S754_finite false 4503599627370496 (-52)));
    vm_compute; reflexivity.
Defined.

(** C8. The gate is monotonic in the score: when [score1 >= score2] and
    the gate proceeds on [score2], at any threshold, it proceeds on
    [score1]; and in [conditional_answer], when the higher score is
    declined the lower one is declined too. *)
Theorem decide_monotonic (t score1 score2 : float) :
  py_ge score1 score2 = true ->
  (decide score2 t = true -> decide score1 t = true)
  /\ (forall (x1 x2 : dict) (raw1 raw2 : string),
        x1 !! "relevance_score" = Some (VStr raw1) ->
        x2 !! "relevance_score" = Some (VStr raw2) ->
        extract_relevance_score (VStr raw1) = Return score1 ->
        extract_relevance_score (VStr raw2) = Return score2 ->
        conditional_answer x1 = Return (VStr decline_message) ->
        conditional_answer x2 = Return (VStr decline_message)).
Proof.
  intros Hge.
  assert (Hmono : forall u, decide score2 u = true -> decide score1 u = true).
  { intros u. unfold decide. rewrite !negb_true_iff. intros H2.
    destruct (py_lt score1 u) eqn:H1; [|reflexivity].
    rewrite <- H2. symmetry. now apply (py_le_lt_trans score2 score1 u). }
  split; [apply Hmono|].
  intros x1 x2 raw1 raw2 Hx1 Hx2 Hs1 Hs2.
  rewrite (conditional_answer_str x1 raw1 score1 Hx1 Hs1).
  rewrite (conditional_answer_str x2 raw2 score2 Hx2 Hs2).
  destruct (decide score2 (float_of_Z 4)) eqn:H2; [|reflexivity].
  rewrite (Hmono _ H2).
  destruct (format_json_output x1); cbn [py_bind]; discriminate.
Qed.

Lemma decide_monotonic_witness :
  (decide (float_of_Z 4) (float_of_Z 4) = true -> decide (float_of_Z 5) (float_of_Z 4) = true)
  /\ (forall (x1 x2 : dict) (raw1 raw2 : string),
        x1 !! "relevance_score" = Some (VStr raw1) ->
        x2 !! "relevance_score" = Some (VStr raw2) ->
        extract_relevance_score (VStr raw1) = Return (float_of_Z 5) ->
        extract_relevance_score (VStr raw2) = Return (float_of_Z 4) ->
        conditional_answer x1 = Return (VStr decline_message) ->
        conditional_answer x2 = Return (VStr decline_message)).
Proof.
  apply (decide_monotonic (float_of_Z 4) (float_of_Z 5) (float_of_Z 4)).
  vm_compute. reflexivity.
Defined.

(** C9 (the code at the failing input). [conditional_answer] returns a
    [FinalOutputModel] whose score is a NaN, which is not >= 4. Every
    answered result whose score is not a NaN does have a score >= 4. *)
Theorem answered_with_nan_score :
  conditional_answer (sample_dict (" NaN" +:+ nl) "Google builds its own chips.")
  = Return (VModel {| relevance_score := S754_nan;
                      answer := "Google builds its own chips." |})
  /\ py_ge S754_nan (float_of_Z 4) = false
  /\ py_lt S754_nan (float_of_Z 4) = false
  /\ (forall x m, conditional_answer x = Return (VModel m) ->
        is_nan (relevance_score m) = false ->
        py_ge (relevance_score m) (float_of_Z 4) = true).
Proof.
  split; [vm_compute; reflexivity|].
  split; [reflexivity|].
  split; [reflexivity|].
  intros x m Hx Hm.
  destruct (conditional_answer_model x m Hx) as (r & _ & _ & Hlt).
  rewrite <- (decide_ge _ (float_of_Z 4) Hm eq_refl). unfold decide.
  now rewrite Hlt.
Qed.

(** C10. In the declined branch [process_user_input] reads the raw
    judgment text with [float], without a fallback: when the text is read
    as [f] the pair of [f] and the decline message is returned, and a text
    that [float] rejects raises [ValueError] there, although
    [extract_relevance_score] returned 0.0 on it. *)
Theorem process_user_input_declined
    (ensemble_retriever : string -> list Document)
    (prompt : string -> string -> string) (llm : string -> string)
    (question : string) (result : dict) (a raw : string) (f : float) :
  rag_chain ensemble_retriever prompt llm question = Return result ->
  result !! "answer" = Some (VStr a) ->
  result !! "relevance_score" = Some (VStr raw) ->
  float_of_str raw = Return f ->
  process_user_input ensemble_retriever prompt llm question
  = Return (f, VStr decline_message)
  /\ a = decline_message
  /\ extract_relevance_score (VStr "five") = Return (S754_zero false)
  /\ process_user_input sample_retriever sample_prompt
       (scripted_llm "five" "Gemini is trained on TPUs.")
       "How is Google developing its LLM?"
     = Raise ValueError.
Proof.
  intros Hrun Ha Hr Hf.
  destruct (rag_chain_str_answer _ _ _ _ result a Hrun Ha) as (-> & _ & _).
  split; [|split; [reflexivity | split; vm_compute; reflexivity]].
  unfold process_user_input. rewrite Hrun. cbn [py_bind].
  unfold getitem. rewrite Ha. cbn [py_bind]. rewrite Hr. cbn [py_bind py_float].
  rewrite Hf. reflexivity.
Qed.

Lemma process_user_input_declined_witness :
  process_user_input sample_retriever sample_prompt
    (scripted_llm " 2.5" "Gemini is trained on TPUs.")
    "How is Google developing its LLM?"
  = Return (S754_finite false 5629499534213120 (-51), VStr decline_message)
  /\ "I don't know due to no relevant content found." = decline_message
  /\ extract_relevance_score (VStr "five") = Return (S754_zero false)
  /\ process_user_input sample_retriever sample_prompt
       (scripted_llm "five" "Gemini is trained on TPUs.")
       "How is Google developing its LLM?"
     = Raise ValueError.
Proof.
  apply (process_user_input_declined sample_retriever sample_prompt
           (scripted_llm " 2.5" "Gemini is trained on TPUs.")
           "How is Google developing its LLM?"
           (<["answer" := VStr "I don't know due to no relevant content found."]>
              (parallel_outputs sample_retriever sample_prompt
                 (scripted_llm " 2.5" "Gemini is trained on TPUs.")
                 "How is Google developing its LLM?"))
           "I don't know due to no relevant content found." " 2.5");
    vm_compute; reflexivity.
Defined.

(** ** Rank fusion *)

Lemma py_lt_asym (a b : float) : py_lt a b = true -> py_lt b a = false.
Proof.
  rewrite py_lt_spec. intros (Ha & Hb & H).
  destruct (py_lt b a) eqn:E; [|reflexivity].
  apply py_lt_spec in E. destruct E as (_ & _ & E).
  rewrite lex_compare_antisym, H in E. discriminate.
Qed.

Section Fusion.

Variables sem lex : list Passage.
Variables ws wl : float.

Local Abbreviation before := (ranks_before sem lex ws wl).
Local Abbreviation follows := (fun p q : Passage => before q p = false).

Lemma ranks_before_asym (p q : Passage) :
  before p q = true -> before q p = false.
Proof.
  unfold before, ranks_before.
  destruct (py_lt (fusion_score sem lex ws wl (text q))
                  (fusion_score sem lex ws wl (text p))) eqn:E1.
  - intros _. now rewrite (py_lt_asym _ _ E1).
  - destruct (py_lt (fusion_score sem lex ws wl (text p))
                    (fusion_score sem lex ws wl (text q))) eqn:E2; [discriminate|].
    destruct (in_both sem lex (text p)), (in_both sem lex (text q));
      try discriminate; try reflexivity;
      rewrite !Nat.ltb_lt, !Nat.ltb_ge; lia.
Qed.

Lemma ranks_before_score (p q : Passage) :
  before q p = false ->
  py_lt (fusion_score sem lex ws wl (text p)) (fusion_score sem lex ws wl (text q)) = false.
Proof.
  unfold before, ranks_before.
  destruct (py_lt (fusion_score sem lex ws wl (text p))
                  (fusion_score sem lex ws wl (text q))); [discriminate | reflexivity].
Qed.

Lemma insert_ranked_perm (x : Passage) (l : list Passage) :
  Permutation (insert_ranked before x l) (x :: l).
Proof.
  induction l as [|y r IH]; cbn; [reflexivity|].
  destruct (before y x); [|reflexivity].
  rewrite IH. apply perm_swap.
Qed.

Lemma sort_ranked_perm (l : list Passage) :
  Permutation (sort_ranked before l) l.
Proof.
  induction l as [|x r IH]; cbn; [reflexivity|].
  fold (sort_ranked before r). rewrite insert_ranked_perm. now constructor.
Qed.

Lemma insert_ranked_sorted (x : Passage) (l : list Passage) :
  Sorted follows l -> Sorted follows (insert_ranked before x l).
Proof.
  induction 1 as [|y r Hs IH Hhd]; cbn.
  - repeat constructor.
  - destruct (before y x) eqn:E.
    + constructor; [exact IH|].
      destruct r as [|z r']; cbn.
      * constructor. now apply ranks_before_asym.
      * destruct (before z x).
        -- constructor. now inversion Hhd.
        -- constructor. now apply ranks_before_asym.
    + constructor; [now constructor|]. constructor. exact E.
Qed.

Lemma sort_ranked_sorted (l : list Passage) : Sorted follows (sort_ranked before l).
Proof.
  induction l as [|x r IH]; cbn; [constructor|].
  now apply insert_ranked_sorted.
Qed.

End Fusion.

Lemma sorted_take {A : Type} (R : A -> A -> Prop) (k : nat) (l : list A) :
  Sorted R l -> Sorted R (take k l).
Proof.
  intros H. revert k. induction H as [|x l Hs IH Hhd]; intros [|k]; cbn;
    try constructor.
  - apply IH.
  - destruct Hhd as [|y l' Hxy]; destruct k; cbn; constructor. exact Hxy.
Qed.

Lemma nodup_map_filter {A B : Type} (f : A -> B) (g : A -> bool) (l : list A) :
  List.NoDup (map f l) -> List.NoDup (map f (List.filter g l)).
Proof.
  induction l as [|x r IH]; cbn; [trivial|].
  rewrite List.NoDup_cons_iff. intros [Hx Hr].
  destruct (g x); cbn; [|now apply IH].
  apply List.NoDup_cons_iff. split; [|now apply IH].
  rewrite in_map_iff in Hx |- *. intros (y & Hy & Hin).
  apply Hx. exists y. split; [exact Hy|].
  apply filter_In in Hin. tauto.
Qed.

Lemma unique_by_text_nodup (l : list Passage) :
  List.NoDup (map text (unique_by_text l)).
Proof.
  induction l as [|p r IH]; cbn; [constructor|].
  apply List.NoDup_cons_iff. split; [|now apply nodup_map_filter].
  rewrite in_map_iff. intros (q & Hq & Hin).
  apply filter_In in Hin. destruct Hin as [_ Hne].
  rewrite Hq, String.eqb_refl in Hne. discriminate.
Qed.

Lemma unique_by_text_in (l : list Passage) (t : string) :
  In t (map text (unique_by_text l)) <-> In t (map text l).
Proof.
  induction l as [|p r IH]; cbn; [tauto|].
  rewrite <- IH. split.
  - intros [H|H]; [now left|]. right.
    rewrite in_map_iff in H |- *. destruct H as (q & Hq & Hin).
    apply filter_In in Hin. exists q. tauto.
  - intros [H|H]; [now left|].
    destruct (String.eqb (text p) t) eqn:E; [left; now apply String.eqb_eq|].
    right. rewrite in_map_iff in H |- *. destruct H as (q & Hq & Hin).
    exists q. split; [exact Hq|]. apply filter_In. split; [exact Hin|].
    rewrite Hq, String.eqb_sym, E. reflexivity.
Qed.

Lemma rank_in_some (t : string) (l : list Passage) (i : nat) :
  rank_in t l = Some i -> In t (map text l).
Proof.
  revert i. induction l as [|p r IH]; intros i; cbn; [discriminate|].
  destruct (String.eqb (text p) t) eqn:E.
  - intros _. left. now apply String.eqb_eq.
  - destruct (rank_in t r); [|discriminate]. intros _. right. eauto.
Qed.

Lemma ranking_texts (sem lex : list Passage) (ws wl : float) (t : string) :
  In t (map text (ranking sem lex ws wl)) <-> In t (map text (sem ++ lex)).
Proof.
  rewrite <- (unique_by_text_in (sem ++ lex)). unfold ranking.
  pose proof (Permutation_map text (sort_ranked_perm sem lex ws wl
                                      (unique_by_text (sem ++ lex)))) as HP.
  split; intros H.
  - exact (Permutation_in _ HP H).
  - exact (Permutation_in _ (Permutation_sym HP) H).
Qed.

Lemma ranking_nodup (sem lex : list Passage) (ws wl : float) :
  List.NoDup (map text (ranking sem lex ws wl)).
Proof.
  unfold ranking.
  eapply Permutation_NoDup; [|apply (unique_by_text_nodup (sem ++ lex))].
  apply Permutation_map, Permutation_sym, sort_ranked_perm.
Qed.

Lemma fuse_nodup (sem lex : list Passage) (ws wl : float) (k : nat) :
  List.NoDup (map text (fuse sem lex ws wl k)).
Proof.
  pose proof (ranking_nodup sem lex ws wl) as H. unfold fuse.
  rewrite <- (take_drop k (ranking sem lex ws wl)), map_app in H.
  exact (NoDup_app_remove_r _ _ H).
Qed.

Lemma sorted_weaken {A : Type} (R R' : A -> A -> Prop) (l : list A) :
  (forall x y, R x y -> R' x y) -> Sorted R l -> Sorted R' l.
Proof.
  intros HR. induction 1 as [|x l Hs IH Hhd]; constructor; trivial.
  destruct Hhd; constructor. now apply HR.
Qed.

Lemma fuse_sorted (sem lex : list Passage) (ws wl : float) (k : nat) :
  Sorted (fun p q => ranks_before sem lex ws wl q p = false) (fuse sem lex ws wl k).
Proof. apply sorted_take, sort_ranked_sorted. Qed.

Lemma unique_by_text_length (l : list Passage) :
  (List.length (unique_by_text l) <= List.length l)%nat.
Proof.
  induction l as [|p r IH]; cbn; [lia|].
  pose proof (List.filter_length_le
                (fun q => negb (String.eqb (text q) (text p))) (unique_by_text r)).
  lia.
Qed.

Lemma ranking_length (sem lex : list Passage) (ws wl : float) :
  (List.length (ranking sem lex ws wl) <= List.length sem + List.length lex)%nat.
Proof.
  unfold ranking.
  rewrite (Permutation_length (sort_ranked_perm sem lex ws wl
                                 (unique_by_text (sem ++ lex)))).
  pose proof (unique_by_text_length (sem ++ lex)) as H.
  rewrite List.length_app in H. exact H.
Qed.

Lemma ranking_once (sem lex : list Passage) (ws wl : float) (t : string) :
  In t (map text sem) \/ In t (map text lex) ->
  count_occ String.string_dec (map text (ranking sem lex ws wl)) t = 1%nat.
Proof.
  intros H. apply NoDup_count_occ'; [apply ranking_nodup|].
  apply ranking_texts. rewrite map_app, in_app_iff. exact H.
Qed.

Lemma fuse_texts (sem lex : list Passage) (ws wl : float) (k : nat) (t : string) :
  In t (map text (fuse sem lex ws wl k)) ->
  In t (map text sem) \/ In t (map text lex).
Proof.
  intros H. rewrite <- in_app_iff, <- map_app. apply (ranking_texts sem lex ws wl).
  rewrite <- (take_drop k (ranking sem lex ws wl)), map_app, in_app_iff.
  left. exact H.
Qed.

(** C7 (amended). For all lists, weights and [k]: the fusion score of a
    text found at rank [i] of the semantic list and rank [j] of the
    lexical list is [ws * (1 / (i + 1)) + wl * (1 / (j + 1))], and a text
    of one list only scores its single term. The fused output is the first
    [k] entries of the ranking; it holds no text twice and only texts of
    the two lists, and no entry has a lower fusion score than its
    successor. Every text of either list occurs exactly once in the full
    ranking, hence at most once in the output, and exactly once when [k]
    covers the ranking, as it does when [k] is at least the two lengths
    together. This holds in particular of a text of both lists. Two empty
    lists fuse to the empty output. *)
Theorem fuse_ranked_unique (sem lex : list Passage) (ws wl : float) (k : nat) :
  (forall t i j, rank_in t sem = Some i -> rank_in t lex = Some j ->
     fusion_score sem lex ws wl t
     = SFadd prec emax
         (SFmul prec emax ws (SFdiv prec emax (float_of_Z 1) (float_of_Z (Z.of_nat i + 1))))
         (SFmul prec emax wl (SFdiv prec emax (float_of_Z 1) (float_of_Z (Z.of_nat j + 1)))))
  /\ (forall u a, rank_in u sem = Some a -> rank_in u lex = None ->
        fusion_score sem lex ws wl u
        = SFmul prec emax ws (SFdiv prec emax (float_of_Z 1) (float_of_Z (Z.of_nat a + 1))))
  /\ (forall u b, rank_in u sem = None -> rank_in u lex = Some b ->
        fusion_score sem lex ws wl u
        = SFmul prec emax wl (SFdiv prec emax (float_of_Z 1) (float_of_Z (Z.of_nat b + 1))))
  /\ fuse sem lex ws wl k = take k (ranking sem lex ws wl)
  /\ List.length (fuse sem lex ws wl k) = Nat.min k (List.length (ranking sem lex ws wl))
  /\ (List.length (ranking sem lex ws wl) <= List.length sem + List.length lex)%nat
  /\ List.NoDup (map text (fuse sem lex ws wl k))
  /\ (forall t, In t (map text (fuse sem lex ws wl k)) ->
        In t (map text sem) \/ In t (map text lex))
  /\ Sorted (fun p q => py_lt (fusion_score sem lex ws wl (text p))
                              (fusion_score sem lex ws wl (text q)) = false)
       (fuse sem lex ws wl k)
  /\ (forall t, In t (map text sem) \/ In t (map text lex) ->
        count_occ String.string_dec (map text (ranking sem lex ws wl)) t = 1%nat)
  /\ (forall t, (count_occ String.string_dec (map text (fuse sem lex ws wl k)) t <= 1)%nat)
  /\ (forall t, In t (map text sem) \/ In t (map text lex) ->
        (List.length (ranking sem lex ws wl) <= k)%nat ->
        count_occ String.string_dec (map text (fuse sem lex ws wl k)) t = 1%nat)
  /\ (forall t i j, rank_in t sem = Some i -> rank_in t lex = Some j ->
        count_occ String.string_dec (map text (ranking sem lex ws wl)) t = 1%nat
        /\ (count_occ String.string_dec (map text (fuse sem lex ws wl k)) t <= 1)%nat
        /\ ((List.length sem + List.length lex <= k)%nat ->
              count_occ String.string_dec (map text (fuse sem lex ws wl k)) t = 1%nat))
  /\ fuse [] [] ws wl k = [].
Proof.
  assert (Hfull : forall t, In t (map text sem) \/ In t (map text lex) ->
            (List.length (ranking sem lex ws wl) <= k)%nat ->
            count_occ String.string_dec (map text (fuse sem lex ws wl k)) t = 1%nat).
  { intros t Ht Hk. unfold fuse. rewrite take_ge by exact Hk.
    now apply ranking_once. }
  split; [intros t i j Hi Hj; unfold fusion_score; now rewrite Hi, Hj|].
  split; [intros u a Ha Hb; unfold fusion_score; now rewrite Ha, Hb|].
  split; [intros u b Ha Hb; unfold fusion_score; now rewrite Ha, Hb|].
  split; [reflexivity|].
  split; [unfold fuse; apply length_take|].
  split; [apply ranking_length|].
  split; [apply fuse_nodup|].
  split; [intros t; apply fuse_texts|].
  split.
  { eapply sorted_weaken; [|apply fuse_sorted].
    intros p q. apply ranks_before_score. }
  split; [intros t; apply ranking_once|].
  split; [intros t; apply NoDup_count_occ, fuse_nodup|].
  split; [exact Hfull|].
  split.
  { intros t i j Hi Hj.
    assert (Ht : In t (map text sem) \/ In t (map text lex))
      by (left; exact (rank_in_some t sem i Hi)).
    split; [now apply ranking_once|].
    split; [apply NoDup_count_occ, fuse_nodup|].
    intros Hk. apply Hfull; [exact Ht|].
    pose proof (ranking_length sem lex ws wl). lia. }
  unfold fuse, ranking. cbn. now destruct k.
Qed.

Lemma fuse_ranked_unique_witness :
  rank_in "water" [passage semantic 0 "solar"; passage semantic 1 "water";
                   passage semantic 2 "waste"] = Some 1%nat
  /\ rank_in "water" [passage lexical 0 "water"; passage lexical 1 "maps"] = Some 0%nat
  /\ fusion_score [passage semantic 0 "solar"; passage semantic 1 "water";
                   passage semantic 2 "waste"]
       [passage lexical 0 "water"; passage lexical 1 "maps"] half half "water"
     = S754_finite false 6755399441055744 (-53)
  /\ count_occ String.string_dec
       (map text (fuse [passage semantic 0 "solar"; passage semantic 1 "water";
                        passage semantic 2 "waste"]
                       [passage lexical 0 "water"; passage lexical 1 "maps"] half half 5))
       "water" = 1%nat
  /\ count_occ String.string_dec
       (map text (fuse [] [passage lexical 0 "water"; passage lexical 1 "maps"]
                    half half 5))
       "maps" = 1%nat.
Proof.
  destruct (fuse_ranked_unique
              [passage semantic 0 "solar"; passage semantic 1 "water";
               passage semantic 2 "waste"]
              [passage lexical 0 "water"; passage lexical 1 "maps"] half half 5)
    as (Hs & _ & _ & _ & _ & _ & _ & _ & _ & _ & _ & _ & Hk & _).
  destruct (fuse_ranked_unique
              [] [passage lexical 0 "water"; passage lexical 1 "maps"] half half 5)
    as (_ & _ & _ & _ & _ & _ & _ & _ & _ & _ & _ & He & _).
  split; [reflexivity|]. split; [reflexivity|]. split.
  - rewrite (Hs "water" 1%nat 0%nat eq_refl eq_refl). vm_compute. reflexivity.
  - split.
    + apply (Hk "water" 1%nat 0%nat eq_refl eq_refl). cbn. lia.
    + apply He.
      * right. cbn. tauto.
      * vm_compute. repeat constructor.
Defined.

(** C7, as stated, fails: with both weights 0.5 a passage at rank 3 of
    both lists is fused at position 4, below its best single-source
    position, although [k] cuts nothing off. *)
Lemma fuse_below_best_rank :
  rank_in "p" [passage semantic 0 "a"; passage semantic 1 "q1";
               passage semantic 2 "q2"; passage semantic 3 "p"] = Some 3%nat
  /\ rank_in "p" [passage lexical 0 "b"; passage lexical 1 "q2";
                  passage lexical 2 "q1"; passage lexical 3 "p"] = Some 3%nat
  /\ map text
       (fuse [passage semantic 0 "a"; passage semantic 1 "q1";
              passage semantic 2 "q2"; passage semantic 3 "p"]
             [passage lexical 0 "b"; passage lexical 1 "q2";
              passage lexical 2 "q1"; passage lexical 3 "p"] half half 10)
     = ["a"; "b"; "q1"; "q2"; "p"]
  /\ rank_in "p"
       (fuse [passage semantic 0 "a"; passage semantic 1 "q1";
              passage semantic 2 "q2"; passage semantic 3 "p"]
             [passage lexical 0 "b"; passage lexical 1 "q2";
              passage lexical 2 "q1"; passage lexical 3 "p"] half half 10) = Some 4%nat.
Proof. repeat split; vm_compute; reflexivity. Qed.

(** * Further properties of the notebook's functions *)

(** ** [conditional_answer] and [format_json_output], case by case *)

(** X2. [conditional_answer] returns a plain string exactly when the
    dictionary has a judgment entry from which a score below 4 is
    extracted, and that string is the decline message; the answer entry is
    not consulted, so it may be missing or hold anything. *)
Theorem conditional_answer_declines_iff (x : dict) (t : string) :
  conditional_answer x = Return (VStr t)
  <-> t = decline_message
      /\ exists r s, x !! "relevance_score" = Some r
           /\ extract_relevance_score r = Return s
           /\ py_lt s (float_of_Z 4) = true.
Proof.
  split.
  - unfold conditional_answer, getitem.
    destruct (x !! "relevance_score") as [r|] eqn:Hr; cbn [py_bind]; [|discriminate].
    destruct (extract_relevance_score r) as [s|e] eqn:Hs; cbn [py_bind];
      [|discriminate].
    destruct (py_lt s (float_of_Z 4)) eqn:Hlt.
    + intros [= <-]. split; [reflexivity|]. exists r, s. now repeat split.
    + destruct (format_json_output x); cbn [py_bind]; discriminate.
  - intros (-> & r & s & Hr & Hs & Hlt). unfold conditional_answer, getitem.
    rewrite Hr. cbn [py_bind]. rewrite Hs. cbn [py_bind]. now rewrite Hlt.
Qed.

(** X3. Four errors of [conditional_answer]: a missing judgment entry is
    a [KeyError], a judgment that is a [FinalOutputModel] an
    [AttributeError]; once the gate has passed, a missing answer entry is
    a [KeyError] and an answer that is already a [FinalOutputModel] a
    [TypeError]. *)
Theorem conditional_answer_errors (x : dict) :
  (x !! "relevance_score" = None ->
     conditional_answer x = Raise (KeyError "relevance_score"))
  /\ (forall m, x !! "relevance_score" = Some (VModel m) ->
        conditional_answer x = Raise AttributeError)
  /\ (forall r s, x !! "relevance_score" = Some r ->
        extract_relevance_score r = Return s ->
        py_lt s (float_of_Z 4) = false ->
        (x !! "answer" = None -> conditional_answer x = Raise (KeyError "answer"))
        /\ (forall m, x !! "answer" = Some (VModel m) ->
              conditional_answer x = Raise TypeError)).
Proof.
  unfold conditional_answer, format_json_output, getitem.
  split; [intros ->; reflexivity|].
  split; [intros m ->; reflexivity|].
  intros r s -> Hs Hlt. cbn [py_bind]. rewrite Hs. cbn [py_bind]. rewrite Hlt.
  split; [intros ->; reflexivity | intros m ->; reflexivity].
Qed.

Lemma conditional_answer_errors_witness :
  conditional_answer (<["answer" := VStr "Gemini is trained on TPUs."]> ∅)
  = Raise (KeyError "relevance_score")
  /\ conditional_answer
       (<["relevance_score" :=
            VModel {| relevance_score := float_of_Z 5; answer := "seen" |}]> ∅)
     = Raise AttributeError
  /\ conditional_answer (<["relevance_score" := VStr "5"]> ∅)
     = Raise (KeyError "answer")
  /\ conditional_answer
       (<["relevance_score" := VStr "5"]>
          (<["answer" :=
               VModel {| relevance_score := float_of_Z 5; answer := "seen" |}]> ∅))
     = Raise TypeError.
Proof.
  split; [|split; [|split]].
  - apply (conditional_answer_errors (<["answer" := VStr "Gemini is trained on TPUs."]> ∅)).
    reflexivity.
  - eapply (conditional_answer_errors
              (<["relevance_score" :=
                   VModel {| relevance_score := float_of_Z 5; answer := "seen" |}]> ∅)).
    reflexivity.
  - eapply (conditional_answer_errors (<["relevance_score" := VStr "5"]> ∅));
      [reflexivity | vm_compute; reflexivity | reflexivity | reflexivity].
  - eapply (conditional_answer_errors
              (<["relevance_score" := VStr "5"]>
                 (<["answer" :=
                      VModel {| relevance_score := float_of_Z 5; answer := "seen" |}]> ∅)));
      [reflexivity | vm_compute; reflexivity | reflexivity | reflexivity].
Defined.

(** ** Surrounding whitespace *)

Lemma list_ascii_of_string_app (a b : string) :
  list_ascii_of_string (a +:+ b) = list_ascii_of_string a ++ list_ascii_of_string b.
Proof.
  induction a as [|c a IH]; [reflexivity|].
  change (c :: list_ascii_of_string (a +:+ b)
          = c :: (list_ascii_of_string a ++ list_ascii_of_string b)).
  now rewrite IH.
Qed.

Lemma drop_while_blank_prefix (p : ascii -> bool) (l s : list ascii) :
  forallb p l = true -> drop_while p (l ++ s) = drop_while p s.
Proof.
  induction l as [|c l IH]; cbn; [reflexivity|].
  destruct (p c); [exact IH | discriminate].
Qed.

Lemma drop_while_app (p : ascii -> bool) (s r : list ascii) :
  drop_while p (s ++ r)
  = match drop_while p s with
    | [] => drop_while p r
    | z => z ++ r
    end.
Proof.
  induction s as [|c s IH]; cbn.
  - now destruct (drop_while p r).
  - destruct (p c); [exact IH | reflexivity].
Qed.

Lemma strip_with_pad (p : ascii -> bool) (l s r : list ascii) :
  forallb p l = true -> forallb p r = true ->
  strip_with p (l ++ s ++ r) = strip_with p s.
Proof.
  intros Hl Hr. unfold strip_with.
  rewrite (drop_while_blank_prefix p l _ Hl), drop_while_app.
  destruct (drop_while p s) as [|c z] eqn:E.
  - now rewrite (drop_while_all p r Hr).
  - rewrite rev_app_distr.
    now rewrite (drop_while_blank_prefix p (rev r) _ (forallb_rev_true p r Hr)).
Qed.

Lemma strip_with_idempotent (p : ascii -> bool) (s : list ascii) :
  strip_with p (strip_with p s) = strip_with p s.
Proof.
  destruct (strip_with_split p s) as (l & r & E & Hl & Hr).
  rewrite E at 2. symmetry. now apply strip_with_pad.
Qed.

(** X4. Whitespace around the judgment text does not change the extracted
    score, whichever of the whitespace characters of [str.strip] it is
    made of. *)
Theorem extract_relevance_score_padding (l s r : string) :
  forallb Py_UNICODE_ISSPACE (list_ascii_of_string l) = true ->
  forallb Py_UNICODE_ISSPACE (list_ascii_of_string r) = true ->
  extract_relevance_score (VStr (l +:+ s +:+ r)) = extract_relevance_score (VStr s).
Proof.
  intros Hl Hr. rewrite !extract_relevance_score_str.
  assert (E : strip (l +:+ s +:+ r) = strip s).
  { unfold strip. rewrite !list_ascii_of_string_app.
    now rewrite (strip_with_pad _ _ _ _ Hl Hr). }
  now rewrite E.
Qed.

Lemma extract_relevance_score_padding_witness :
  extract_relevance_score (VStr ((" " +:+ nl) +:+ "4.5" +:+ (String "160" "")))
  = extract_relevance_score (VStr "4.5").
Proof.
  apply (extract_relevance_score_padding (" " +:+ nl) "4.5" (String "160" ""));
    vm_compute; reflexivity.
Defined.

(** ** [float] against [extract_relevance_score] *)

Lemma underscore_not_digit (c : ascii) : is_underscore c = true -> is_digit c = false.
Proof. by_ascii c. Qed.

Lemma blank_transformed (c : ascii) :
  Py_ISSPACE (transform_char c) || literal_char (transform_char c) = true ->
  Py_ISSPACE (transform_char c) = Py_UNICODE_ISSPACE c.
Proof. by_ascii c. Qed.

Lemma drop_while_map (p q : ascii -> bool) (f : ascii -> ascii) (s : list ascii) :
  (forall c, In c s -> q (f c) = p c) ->
  drop_while q (map f s) = map f (drop_while p s).
Proof.
  induction s as [|c s IH]; intros H; cbn; [reflexivity|].
  rewrite (H c (or_introl eq_refl)).
  destruct (p c); [|reflexivity]. apply IH. intros; apply H; now right.
Qed.

Lemma drop_while_incl (p : ascii -> bool) (s : list ascii) (c : ascii) :
  In c (drop_while p s) -> In c s.
Proof.
  induction s as [|d s IH]; cbn; [trivial|].
  destruct (p d); [right; now apply IH | trivial].
Qed.

Lemma strip_with_map (p q : ascii -> bool) (f : ascii -> ascii) (s : list ascii) :
  (forall c, In c s -> q (f c) = p c) ->
  strip_with q (map f s) = map f (strip_with p s).
Proof.
  intros H. unfold strip_with.
  rewrite (drop_while_map p q f s H), <- map_rev.
  rewrite (drop_while_map p q f).
  - now rewrite map_rev.
  - intros c Hc. apply H. apply in_rev in Hc. now apply drop_while_incl in Hc.
Qed.

Lemma drop_underscores_prev (p1 p2 : ascii) (a : list ascii) :
  is_digit p1 = is_digit p2 -> is_underscore p1 = is_underscore p2 ->
  drop_underscores p1 a = drop_underscores p2 a.
Proof. intros Hd Hu. destruct a as [|c a]; cbn; now rewrite ?Hd, ?Hu. Qed.

Lemma drop_underscores_nil (prev : ascii) (a : list ascii) :
  drop_underscores prev a = Some [] -> a = [].
Proof.
  destruct a as [|c a]; [reflexivity|]. cbn.
  destruct (is_underscore c) eqn:Hc.
  - destruct (is_digit prev); [|discriminate].
    destruct a as [|d a]; cbn; rewrite Hc; [discriminate|].
    rewrite (underscore_not_digit c Hc).
    destruct (is_underscore d); [discriminate|]. cbn.
    destruct (is_digit d); cbn; [|discriminate].
    destruct (drop_underscores d a); discriminate.
  - destruct (is_underscore prev && negb (is_digit c)); [discriminate|].
    destruct (drop_underscores c a); discriminate.
Qed.

Lemma drop_underscores_drop_while (prev : ascii) (a t : list ascii) :
  is_digit prev = false -> is_underscore prev = false ->
  drop_underscores prev a = Some t ->
  drop_underscores prev (drop_while Py_ISSPACE a) = Some (drop_while Py_ISSPACE t).
Proof.
  revert prev t. induction a as [|c a IH]; intros prev t Hd Hu.
  - cbn. rewrite Hu. now intros [= <-].
  - cbn. rewrite Hd, Hu. cbn [andb].
    destruct (Py_ISSPACE c) eqn:Hc.
    + pose proof (blank_not_literal c Hc) as Hl. unfold literal_char in Hl.
      apply orb_false_iff in Hl. destruct Hl as [Hcu _]. rewrite Hcu.
      destruct (drop_underscores c a) as [t'|] eqn:E; [|discriminate].
      intros [= <-]. cbn. rewrite Hc.
      rewrite (drop_underscores_prev prev c); trivial.
      * apply (IH c t'); trivial.
        destruct (is_digit c) eqn:D; [|reflexivity].
        rewrite (digit_not_blank c D) in Hc. discriminate.
      * destruct (is_digit c) eqn:D; [|exact Hd].
        rewrite (digit_not_blank c D) in Hc. discriminate.
      * now rewrite Hu, Hcu.
    + destruct (is_underscore c) eqn:Hcu; [discriminate|].
      destruct (drop_underscores c a) as [t'|] eqn:E; [|discriminate].
      intros [= <-]. cbn. rewrite Hc, Hd, Hu, Hcu, E. reflexivity.
Qed.

Lemma drop_end_cons (p : ascii -> bool) (c : ascii) (l : list ascii) :
  rev (drop_while p (rev (c :: l)))
  = match rev (drop_while p (rev l)) with
    | [] => if p c then [] else [c]
    | z => c :: z
    end.
Proof.
  cbn [rev]. rewrite drop_while_app.
  destruct (drop_while p (rev l)) as [|d z] eqn:E.
  - cbn. now destruct (p c).
  - rewrite rev_app_distr. cbn [rev app].
    destruct (rev z ++ [d]) eqn:E'; [|reflexivity].
    now apply app_eq_nil in E'.
Qed.

Lemma drop_underscores_cons (prev c : ascii) (r : list ascii) :
  drop_underscores prev (c :: r)
  = if is_underscore c then
      if is_digit prev then drop_underscores c r else None
    else if is_underscore prev && negb (is_digit c) then None
    else option_map (cons c) (drop_underscores c r).
Proof. reflexivity. Qed.

Lemma drop_underscores_drop_end (prev : ascii) (a t : list ascii) :
  drop_underscores prev a = Some t ->
  drop_underscores prev (rev (drop_while Py_ISSPACE (rev a)))
  = Some (rev (drop_while Py_ISSPACE (rev t))).
Proof.
  revert prev t. induction a as [|c a IH]; intros prev t.
  - cbn. destruct (is_underscore prev); [discriminate|]. now intros [= <-].
  - rewrite drop_end_cons, drop_underscores_cons.
    destruct (is_underscore c) eqn:Hcu.
    + destruct (is_digit prev) eqn:Hd; [|discriminate]. intros H.
      pose proof (IH c t H) as IH'.
      rewrite (underscore_not_blank c Hcu).
      destruct (rev (drop_while Py_ISSPACE (rev a))) as [|d z].
      * cbn in IH'. rewrite Hcu in IH'. discriminate.
      * rewrite drop_underscores_cons, Hcu, Hd. exact IH'.
    + destruct (is_underscore prev && negb (is_digit c)) eqn:Hg; [discriminate|].
      destruct (drop_underscores c a) as [t'|] eqn:E; [|discriminate].
      intros [= <-]. pose proof (IH c t' E) as IH'.
      rewrite drop_end_cons.
      destruct (rev (drop_while Py_ISSPACE (rev a))) as [|d z] eqn:Ea.
      * cbn in IH'. rewrite Hcu in IH'. injection IH' as IH'. rewrite <- IH'.
        assert (Hp : Py_ISSPACE c = true -> is_underscore prev = false).
        { intros Hc. destruct (is_underscore prev); [|reflexivity].
          cbn in Hg. apply negb_false_iff in Hg.
          rewrite (digit_not_blank c Hg) in Hc. discriminate. }
        destruct (Py_ISSPACE c) eqn:Hc.
        -- cbn. now rewrite (Hp eq_refl).
        -- rewrite drop_underscores_cons, Hcu, Hg. cbn. now rewrite Hcu.
      * destruct (rev (drop_while Py_ISSPACE (rev t'))) as [|d' z'] eqn:Et.
        -- apply drop_underscores_nil in IH'. discriminate.
        -- rewrite drop_underscores_cons, Hcu, Hg. now rewrite IH'.
Qed.

Lemma drop_underscores_strip (a t : list ascii) :
  drop_underscores zero a = Some t ->
  drop_underscores zero (strip_with Py_ISSPACE a) = Some (strip_with Py_ISSPACE t).
Proof.
  intros H. unfold strip_with. apply drop_underscores_drop_end.
  now apply drop_underscores_drop_while.
Qed.

Lemma float_of_str_strip (s : string) (f : float) :
  float_of_str s = Return f -> float_of_str (strip s) = Return f.
Proof.
  intros Hf. destruct (float_of_str_shape s f Hf) as [_ F].
  revert Hf. unfold float_of_str. rewrite strip_chars.
  assert (Hmap : map transform_char
                   (strip_with Py_UNICODE_ISSPACE (list_ascii_of_string s))
                 = strip_with Py_ISSPACE (map transform_char (list_ascii_of_string s))).
  { symmetry. apply strip_with_map. intros c Hc. apply blank_transformed.
    rewrite forallb_forall in F. apply F. now apply in_map. }
  rewrite Hmap.
  destruct (drop_underscores zero (map transform_char (list_ascii_of_string s)))
    as [t|] eqn:Hd; [|discriminate].
  rewrite (drop_underscores_strip _ t Hd), strip_with_idempotent. trivial.
Qed.

(** X5. Whenever [float] accepts the raw judgment text as it stands,
    [extract_relevance_score] returns that same float: stripping first
    never changes the value read. *)
Theorem float_accepts_extract_agrees (raw : string) (f : float) :
  float_of_str raw = Return f -> extract_relevance_score (VStr raw) = Return f.
Proof.
  intros H. now rewrite extract_relevance_score_str, (float_of_str_strip raw f H).
Qed.

Lemma float_accepts_extract_agrees_witness :
  extract_relevance_score (VStr (" 1_0.5e-1" +:+ nl))
  = Return (S754_finite false 4728779608739021 (-52)).
Proof.
  apply (float_accepts_extract_agrees (" 1_0.5e-1" +:+ nl)).
  vm_compute. reflexivity.
Defined.

(** ** The chain and [process_user_input] *)

Lemma zero_below_threshold : py_lt (S754_zero false) (float_of_Z 4) = true.
Proof. reflexivity. Qed.

Section RunFacts.

Variable ensemble_retriever : string -> list Document.
Variable prompt : string -> string -> string.
Variable llm : string -> string.
Variable question : string.

Local Abbreviation context := (format_docs (ensemble_retriever question)).
Local Abbreviation raw := (llm (relevance_prompt_template question context)).
Local Abbreviation draft := (llm (prompt context question)).
Local Abbreviation x := (parallel_outputs ensemble_retriever prompt llm question).

Lemma process_user_input_decline_branch (s : float) :
  extract_relevance_score (VStr raw) = Return s ->
  py_lt s (float_of_Z 4) = true ->
  process_user_input ensemble_retriever prompt llm question
  = (f <- float_of_str raw ;; Return (f, VStr decline_message)).
Proof.
  intros Hs Hlt. unfold process_user_input.
  rewrite (rag_chain_decline_branch _ _ _ _ s Hs Hlt). cbn [py_bind].
  unfold getitem. rewrite lookup_insert_eq. cbn [py_bind].
  rewrite lookup_insert_ne by discriminate.
  rewrite parallel_outputs_relevance. reflexivity.
Qed.

Lemma process_user_input_answer_branch (s : float) :
  extract_relevance_score (VStr raw) = Return s ->
  py_lt s (float_of_Z 4) = false ->
  process_user_input ensemble_retriever prompt llm question
  = Return (s, VStr draft).
Proof.
  intros Hs Hlt. unfold process_user_input.
  rewrite (rag_chain_answer_branch _ _ _ _ s Hs Hlt). cbn [py_bind].
  unfold getitem. rewrite lookup_insert_eq. reflexivity.
Qed.

(** X6. Every run of the chain returns: the result has exactly the two
    entries ["relevance_score"] and ["answer"], the first is the raw
    judgment text unchanged, and the second is either the decline message
    or a [FinalOutputModel] holding the draft answer. *)
Theorem rag_chain_result_shape :
  exists result,
    rag_chain ensemble_retriever prompt llm question = Return result
    /\ result !! "relevance_score" = Some (VStr raw)
    /\ (result !! "answer" = Some (VStr decline_message)
        \/ exists s, result !! "answer"
                     = Some (VModel {| relevance_score := s; answer := draft |}))
    /\ (forall k, k <> "relevance_score" -> k <> "answer" -> result !! k = None).
Proof.
  pose proof (extract_relevance_score_str raw) as Hs.
  set (s := match float_of_str (strip raw) with
            | Return f => f
            | Raise _ => S754_zero false
            end) in Hs.
  assert (Hshape : forall a,
             <["answer" := a]> x !! "relevance_score" = Some (VStr raw)
             /\ <["answer" := a]> x !! "answer" = Some a
             /\ (forall k, k <> "relevance_score" -> k <> "answer" ->
                   <["answer" := a]> x !! k = None)).
  { intros a. split; [|split].
    - rewrite lookup_insert_ne by discriminate. apply parallel_outputs_relevance.
    - apply lookup_insert_eq.
    - intros k H1 H2. unfold parallel_outputs.
      rewrite !lookup_insert_ne by congruence. apply lookup_empty. }
  destruct (py_lt s (float_of_Z 4)) eqn:Hlt.
  - exists (<["answer" := VStr decline_message]> x).
    destruct (Hshape (VStr decline_message)) as (H1 & H2 & H3).
    split; [exact (rag_chain_decline_branch _ _ _ _ s Hs Hlt)|]. eauto.
  - exists (<["answer" := VModel {| relevance_score := s; answer := draft |}]> x).
    destruct (Hshape (VModel {| relevance_score := s; answer := draft |}))
      as (H1 & H2 & H3).
    split; [exact (rag_chain_answer_branch _ _ _ _ s Hs Hlt)|]. eauto.
Qed.

(** X7. A judgment text that [float] rejects after stripping (free text,
    an empty reply, several numbers) makes the chain decline: the sentinel
    0.0 is below the threshold. *)
Theorem rag_chain_declines_unparsable (e : exn) :
  float_of_str (strip raw) = Raise e ->
  rag_chain ensemble_retriever prompt llm question
  = Return (<["answer" := VStr decline_message]> x).
Proof.
  intros H. apply (rag_chain_decline_branch _ _ _ _ (S754_zero false)).
  - now rewrite extract_relevance_score_str, H.
  - exact zero_below_threshold.
Qed.

(** X8. When the gate passes, [process_user_input] returns the extracted
    score together with the draft answer as plain text. *)
Theorem process_user_input_answered (s : float) :
  extract_relevance_score (VStr raw) = Return s ->
  py_lt s (float_of_Z 4) = false ->
  process_user_input ensemble_retriever prompt llm question
  = Return (s, VStr draft).
Proof. apply process_user_input_answer_branch. Qed.

(** X9. Whatever [process_user_input] returns, the score it shows is the
    score the gate decided on: it equals the extracted score, and the text
    next to it is the decline message when that score is below 4 and the
    draft when it is not. Unless the draft is itself the decline message,
    the text is the decline message only when the score is below 4. *)
Theorem process_user_input_shows_gate_score (f : float) (v : value) :
  process_user_input ensemble_retriever prompt llm question = Return (f, v) ->
  extract_relevance_score (VStr raw) = Return f
  /\ v = (if py_lt f (float_of_Z 4) then VStr decline_message else VStr draft)
  /\ (draft <> decline_message ->
        (v = VStr decline_message <-> py_lt f (float_of_Z 4) = true)).
Proof.
  pose proof (extract_relevance_score_str raw) as Hs.
  set (s := match float_of_str (strip raw) with
            | Return f => f
            | Raise _ => S754_zero false
            end) in Hs.
  destruct (py_lt s (float_of_Z 4)) eqn:Hlt.
  - rewrite (process_user_input_decline_branch s Hs Hlt).
    destruct (float_of_str raw) as [g|e] eqn:Hg; cbn [py_bind]; [|discriminate].
    intros [= <- <-].
    pose proof (float_of_str_strip raw g Hg) as Hg'.
    assert (s = g) by (unfold s; now rewrite Hg').
    subst g. split; [exact Hs|]. rewrite Hlt. now repeat split.
  - rewrite (process_user_input_answer_branch s Hs Hlt).
    intros [= <- <-]. split; [exact Hs|]. rewrite Hlt. split; [reflexivity|].
    intros Hd. split; [intros [= H]; now elim Hd | discriminate].
Qed.

(** X10. [process_user_input] raises exactly when the result is declined
    and [float] rejects the raw, unstripped judgment text, and the error
    is then a [ValueError]; no other error leaves it. *)
Theorem process_user_input_raises_iff (e : exn) :
  process_user_input ensemble_retriever prompt llm question = Raise e
  <-> e = ValueError
      /\ float_of_str raw = Raise ValueError
      /\ exists s, extract_relevance_score (VStr raw) = Return s
                   /\ py_lt s (float_of_Z 4) = true.
Proof.
  pose proof (extract_relevance_score_str raw) as Hs.
  set (s := match float_of_str (strip raw) with
            | Return f => f
            | Raise _ => S754_zero false
            end) in Hs.
  split.
  - destruct (py_lt s (float_of_Z 4)) eqn:Hlt.
    + rewrite (process_user_input_decline_branch s Hs Hlt).
      destruct (float_of_str raw) as [g|e'] eqn:Hg; cbn [py_bind]; [discriminate|].
      intros [= <-]. rewrite (float_of_str_raises _ _ Hg). eauto.
    + rewrite (process_user_input_answer_branch s Hs Hlt). discriminate.
  - intros (-> & Hf & s' & Hs' & Hlt).
    rewrite (process_user_input_decline_branch s' Hs' Hlt), Hf. reflexivity.
Qed.

End RunFacts.

Lemma rag_chain_declines_unparsable_witness :
  rag_chain sample_retriever sample_prompt
    (scripted_llm "Score: 5" "Google runs on carbon-free energy.")
    "What are Google's environmental initiatives?"
  = Return (<["answer" := VStr decline_message]>
              (parallel_outputs sample_retriever sample_prompt
                 (scripted_llm "Score: 5" "Google runs on carbon-free energy.")
                 "What are Google's environmental initiatives?")).
Proof.
  apply (rag_chain_declines_unparsable sample_retriever sample_prompt
           (scripted_llm "Score: 5" "Google runs on carbon-free energy.")
           "What are Google's environmental initiatives?" ValueError).
  vm_compute. reflexivity.
Defined.

Lemma process_user_input_answered_witness :
  process_user_input sample_retriever sample_prompt
    (scripted_llm "4" "Google runs on carbon-free energy.")
    "What are Google's environmental initiatives?"
  = Return (S754_finite false 4503599627370496 (-50),
            VStr "Google runs on carbon-free energy.").
Proof.
  apply (process_user_input_answered sample_retriever sample_prompt
           (scripted_llm "4" "Google runs on carbon-free energy.")
           "What are Google's environmental initiatives?");
    vm_compute; reflexivity.
Defined.

Lemma process_user_input_shows_gate_score_witness :
  extract_relevance_score (VStr "3.5") = Return (S754_finite false 7881299347898368 (-51))
  /\ VStr decline_message
     = (if py_lt (S754_finite false 7881299347898368 (-51)) (float_of_Z 4)
        then VStr decline_message
        else VStr "Google runs on carbon-free energy.")
  /\ ("Google runs on carbon-free energy." <> decline_message ->
        (VStr decline_message = VStr decline_message
         <-> py_lt (S754_finite false 7881299347898368 (-51)) (float_of_Z 4) = true)).
Proof.
  apply (process_user_input_shows_gate_score sample_retriever sample_prompt
           (scripted_llm "3.5" "Google runs on carbon-free energy.")
           "What are Google's environmental initiatives?").
  vm_compute. reflexivity.
Defined.

(** ** Separator characters *)

Lemma separator_is_unicode_space (c : ascii) :
  (28 <=? code c)%N && (code c <=? 31)%N = true -> Py_UNICODE_ISSPACE c = true.
Proof. by_ascii c. Qed.

Lemma strip_leading_space (c : ascii) (s : string) :
  Py_UNICODE_ISSPACE c = true -> strip (String c s) = strip s.
Proof.
  intros Hc. unfold strip. f_equal.
  change (list_ascii_of_string (String c s)) with ([c] ++ list_ascii_of_string s).
  rewrite <- (app_nil_r (list_ascii_of_string s)) at 1.
  apply strip_with_pad; [cbn; now rewrite Hc | reflexivity].
Qed.

(** X11. A judgment text that starts with one of the separators U+001C to
    U+001F is stripped by [extract_relevance_score], which reads the rest,
    but is rejected by [float] as it stands. So when the rest scores below
    4, the chain declines and [process_user_input] raises [ValueError]
    instead of returning the decline message. *)
Theorem leading_separator (c : ascii) (s : string) :
  (28 <=? code c)%N && (code c <=? 31)%N = true ->
  extract_relevance_score (VStr (String c s)) = extract_relevance_score (VStr s)
  /\ float_of_str (String c s) = Raise ValueError
  /\ (forall ensemble_retriever prompt llm question f,
        llm (relevance_prompt_template question
               (format_docs (ensemble_retriever question))) = String c s ->
        extract_relevance_score (VStr s) = Return f ->
        py_lt f (float_of_Z 4) = true ->
        process_user_input ensemble_retriever prompt llm question = Raise ValueError).
Proof.
  intros Hsep.
  assert (H1 : extract_relevance_score (VStr (String c s))
               = extract_relevance_score (VStr s)).
  { rewrite !extract_relevance_score_str.
    now rewrite (strip_leading_space c s (separator_is_unicode_space c Hsep)). }
  assert (H2 : float_of_str (String c s) = Raise ValueError).
  { apply not_float_raises. intros f Hf.
    destruct (float_of_str_shape _ _ Hf) as [_ F]. cbn in F.
    apply andb_true_iff in F. destruct F as [F _].
    rewrite (transform_char_separator c Hsep) in F. discriminate. }
  split; [exact H1|]. split; [exact H2|].
  intros ensemble_retriever prompt llm question f Hraw Hs Hlt.
  rewrite <- H1, <- Hraw in Hs.
  rewrite (process_user_input_decline_branch _ _ _ _ f Hs Hlt), Hraw, H2.
  reflexivity.
Qed.

Lemma leading_separator_witness :
  extract_relevance_score (VStr (String "028" "2"))
  = extract_relevance_score (VStr "2")
  /\ float_of_str (String "028" "2") = Raise ValueError
  /\ process_user_input sample_retriever sample_prompt
       (scripted_llm (String "028" "2") "Gemini is trained on TPUs.")
       "How is Google developing its LLM?" = Raise ValueError.
Proof.
  destruct (leading_separator "028" "2" eq_refl) as (H1 & H2 & H3).
  split; [exact H1|]. split; [exact H2|].
  apply (H3 sample_retriever sample_prompt
           (scripted_llm (String "028" "2") "Gemini is trained on TPUs.")
           "How is Google developing its LLM?"
           (S754_finite false 4503599627370496 (-51)));
    vm_compute; reflexivity.
Defined.

(** ** Signed judgments *)

Lemma binary_round_aux_negative (m e : Z) (l : location) :
  is_nan (binary_round_aux prec emax true m e l) = true
  \/ py_lt (binary_round_aux prec emax true m e l) (float_of_Z 4) = true.
Proof.
  unfold binary_round_aux.
  destruct (shr_fexp prec emax m e l) as [mrs' e'].
  destruct (shr_fexp prec emax _ e' loc_Exact) as [mrs'' e''].
  destruct (shr_m mrs'') as [|p|p].
  - right. reflexivity.
  - destruct (e'' <=? emax - prec); right; reflexivity.
  - left. reflexivity.
Qed.

Lemma decimal_to_float_negative (m : N) (e : Z) :
  is_nan (decimal_to_float true m e) = true
  \/ py_lt (decimal_to_float true m e) (float_of_Z 4) = true.
Proof.
  unfold decimal_to_float. destruct m as [|p]; [right; reflexivity|].
  destruct (0 <=? e).
  - unfold binary_round. destruct (shl_align _ _ _) as [mz ez].
    apply binary_round_aux_negative.
  - destruct (SFdiv_core_binary prec emax (Z.pos p) 0 (10 ^ (- e)) 0) as [[q e'] l].
    apply binary_round_aux_negative.
Qed.

Lemma parse_float_negative (r : list ascii) (f : float) :
  parse_float ("-"%char :: r) = Some f ->
  is_nan f = true \/ py_lt f (float_of_Z 4) = true.
Proof.
  unfold parse_float. cbn [parse_sign].
  destruct (parse_decimal r) as [[m e]|].
  - intros [= <-]. apply decimal_to_float_negative.
  - unfold parse_inf_or_nan.
    destruct (_ || _); [intros [= <-]; right; reflexivity|].
    destruct (String.eqb _ _); [intros [= <-]; left; reflexivity | discriminate].
Qed.

Lemma float_of_str_negative (t : string) (r : list ascii) (f : float) :
  list_ascii_of_string t = "-"%char :: r ->
  float_of_str t = Return f ->
  is_nan f = true \/ py_lt f (float_of_Z 4) = true.
Proof.
  intros Ht. unfold float_of_str. rewrite Ht. cbn [map].
  change (transform_char "-") with "-"%char.
  rewrite drop_underscores_cons.
  change (is_underscore "-") with false. cbn [andb].
  change (is_underscore zero) with false. cbn [andb].
  destruct (drop_underscores "-" (map transform_char r)) as [t'|]; [|discriminate].
  cbn [option_map]. unfold strip_with.
  change (drop_while Py_ISSPACE ("-"%char :: t')) with ("-"%char :: t').
  rewrite drop_end_cons. change (Py_ISSPACE "-") with false.
  destruct (rev (drop_while Py_ISSPACE (rev t'))) as [|d z].
  - destruct (parse_float ["-"%char]) eqn:E; [|discriminate].
    intros [= <-]. now apply (parse_float_negative []).
  - destruct (parse_float ("-"%char :: d :: z)) eqn:E; [|discriminate].
    intros [= <-]. now apply (parse_float_negative (d :: z)).
Qed.

(** X12. A judgment whose stripped text starts with a minus sign never
    passes the gate with a number: [conditional_answer] declines it,
    unless the text spells a NaN. *)
Theorem signed_judgment_declined (x : dict) (raw : string) (r : list ascii) :
  x !! "relevance_score" = Some (VStr raw) ->
  list_ascii_of_string (strip raw) = "-"%char :: r ->
  conditional_answer x = Return (VStr decline_message)
  \/ extract_relevance_score (VStr raw) = Return S754_nan.
Proof.
  intros Hx Hr.
  pose proof (extract_relevance_score_str raw) as Hs.
  destruct (float_of_str (strip raw)) as [f|e] eqn:Hf.
  - destruct (float_of_str_negative _ r f Hr Hf) as [Hnan|Hlt].
    + right. destruct f; try discriminate. exact Hs.
    + left. rewrite (conditional_answer_str x raw f Hx Hs). unfold decide.
      now rewrite Hlt.
  - left. rewrite (conditional_answer_str x raw _ Hx Hs). reflexivity.
Qed.

Lemma signed_judgment_declined_witness :
  conditional_answer (sample_dict " -5" "Gemini is trained on TPUs.")
  = Return (VStr decline_message)
  \/ extract_relevance_score (VStr " -5") = Return S754_nan.
Proof.
  apply (signed_judgment_declined (sample_dict " -5" "Gemini is trained on TPUs.")
           " -5" (list_ascii_of_string "5")); vm_compute; reflexivity.
Defined.

(** ** [format_docs] *)

Lemma string_app_assoc (a b c : string) : (a +:+ b) +:+ c = a +:+ (b +:+ c).
Proof.
  induction a as [|d a IH]; [reflexivity|].
  change (String d ((a +:+ b) +:+ c) = String d (a +:+ (b +:+ c))).
  now rewrite IH.
Qed.

Lemma string_length_app (a b : string) :
  String.length (a +:+ b) = (String.length a + String.length b)%nat.
Proof.
  induction a as [|d a IH]; [reflexivity|].
  change (S (String.length (a +:+ b)) = S (String.length a + String.length b)).
  now rewrite IH.
Qed.

Lemma concat_cons (sep d : string) (ds : list string) :
  ds <> [] -> String.concat sep (d :: ds) = d +:+ (sep +:+ String.concat sep ds).
Proof. destruct ds; [congruence | reflexivity]. Qed.

(** X13. Formatting two non-empty batches of documents one after the other
    is the same as formatting each and joining the two texts with one
    blank line; no separator is put before the first or after the last
    document. *)
Theorem format_docs_app (docs1 docs2 : list Document) :
  docs1 <> [] -> docs2 <> [] ->
  format_docs (docs1 ++ docs2)
  = format_docs docs1 +:+ ((nl +:+ nl) +:+ format_docs docs2).
Proof.
  intros H1 H2. unfold format_docs. rewrite map_app.
  assert (H2' : map page_content docs2 <> []) by (destruct docs2; [congruence | discriminate]).
  clear H2. induction docs1 as [|d ds IH]; [congruence|]. clear H1.
  destruct ds as [|d' ds].
  - cbn [map app]. now rewrite concat_cons.
  - cbn [map app] in IH |- *.
    rewrite concat_cons by discriminate.
    rewrite IH by discriminate.
    rewrite (concat_cons _ (page_content d)) by discriminate.
    now rewrite !string_app_assoc.
Qed.

Lemma format_docs_app_witness :
  format_docs ([ {| page_content := "Solar." |} ] ++
               [ {| page_content := "Water." |}; {| page_content := "Waste." |} ])
  = format_docs [ {| page_content := "Solar." |} ]
    +:+ ((nl +:+ nl)
         +:+ format_docs [ {| page_content := "Water." |}; {| page_content := "Waste." |} ]).
Proof.
  apply (format_docs_app [ {| page_content := "Solar." |} ]
           [ {| page_content := "Water." |}; {| page_content := "Waste." |} ]);
    discriminate.
Defined.

(** X14. The formatted context is as long as the documents together plus
    two characters for each gap between neighbours; the empty list gives
    the empty text. *)
Theorem format_docs_length (docs : list Document) :
  String.length (format_docs docs)
  = (list_sum (map (fun d => String.length (page_content d)) docs)
     + 2 * (List.length docs - 1))%nat.
Proof.
  unfold format_docs. induction docs as [|d ds IH]; [reflexivity|].
  destruct ds as [|d' ds].
  - cbn. lia.
  - cbn [map] in IH |- *. rewrite concat_cons by discriminate.
    rewrite !string_length_app, IH. unfold list_sum.
    cbn [fold_right List.length nl String.length]. lia.
Qed.
